(** * The IAP2 JNI binding (jni/com_android_bluetooth_iap2.cpp)

    A shallow embedding of the native half of
    com.android.bluetooth.iap2.Iap2StateMachine: the four callbacks the
    Bluetooth stack fires (connection state, service state, data, error),
    the gate every callback goes through (checkCallbackThread), and the six
    native methods (classInit, initialize, cleanup, connect, disconnect,
    sendData).

    The C++ file is stateful in three ways, and the model keeps the three
    apart:
    - the file's own static variables (the method ids, the interface
      pointer, the listener's global reference, the cached callback env);
    - the Java side reached through JNI: the object heap and the table of
      global references;
    - the native memory the stack's buffers live in.
    Everything the file calls but does not define (the JNI functions, the
    stack's interface table, AdapterService's helpers) is either given its
    JNI meaning on that state or answered by an oracle record.

    A run leaves a log.  Logged are: the log lines, the calls of the
    stack's interface, the listener call (CallVoidMethod), the exceptions
    thrown and cleared, and the calls that make, free or release
    references.  Every entry of the log is stamped with the state in which
    the call was made, so that what a call finds (the array as it is when
    the listener is called) can be told from what the run leaves behind.
    The JNI calls whose whole effect is on the Java heap (NewByteArray,
    SetByteArrayRegion, NewStringUTF, jniCreateFileDescriptor) and the
    calls that only ask (getCallbackEnv, getJNIEnv, getBluetoothInterface,
    get_profile_interface, GetByteArrayElements, GetMethodID) have no entry
    of their own: the former show in the stamps, the latter in the
    results.  The listener's Java code is not part of this file: the state
    is the state as the native code writes it. *)

From Stdlib Require Import ZArith String List Bool Lia.
From stdpp Require Import base list.
Import ListNotations.

Local Open Scope Z_scope.

(** ** Values shared with the headers *)

Definition byte := Byte.byte.

(** C enumerations are ints; the file only compares them and casts them
    to jint. *)
Definition bt_status_t := Z.
Definition btiap2_connection_state_t := Z.
Definition btiap2_service_state_t := Z.
Definition btiap2_error_t := Z.

(** The constants the file takes from headers that are not part of the
    sources under study (hardware/bluetooth.h, hardware/bt_iap2.h,
    errno.h).  They are parameters of the whole development. *)
Class Headers := {
  BT_STATUS_SUCCESS : bt_status_t;
  BTIAP2_SERVICE_STATE_CONNECTED : btiap2_service_state_t;
  BT_PROFILE_IAP2_ID : string;
  sizeof_bt_bdaddr_t : Z;
  EINVAL : Z
}.

(** ** JNI values *)

(** A JNIEnv pointer identifies the thread it belongs to; NULL is None. *)
Definition JNIEnv := nat.

(** A local reference is an index into the Java heap, a global reference
    an index into the global reference table. *)
Definition jref := nat.
Definition jglobal := nat.
Definition jobject := jref.
Definition jbyteArray := option jref.

(** A method id is the (name, signature) pair it was resolved from. *)
Definition jmethodID := (string * string)%type.
Definition jclass := list (string * string).

Definition jboolean := bool.
Definition JNI_TRUE : jboolean := true.
Definition JNI_FALSE : jboolean := false.

Inductive jobj :=
| JByteArray (elems : list byte)
| JFileDescriptor (fd : Z)
| JString (chars : string)
| JInstance (cls : string).

Inductive jvalue :=
| JInt (i : Z)
| JObject (r : option jref).

(** [(jint) len] for an [unsigned int len]: reduction to 32 bits, read as
    a signed number. *)
Definition jint_of_uint (len : Z) : Z :=
  let m := len mod 2 ^ 32 in
  if m <? 2 ^ 31 then m else m - 2 ^ 32.

(** ** The stack's interface tables *)

(** btiap2_interface_t: the status each entry answers with.  The
    address and the payload are what the pointer argument points to. *)
Record btiap2_interface_t := {
  iap2_init : bt_status_t;
  iap2_connect : list byte -> bt_status_t;
  iap2_disconnect : list byte -> bt_status_t;
  iap2_send_data : Z -> list byte -> bt_status_t
}.

Record bt_interface_t := {
  get_profile_interface : string -> option btiap2_interface_t
}.

(** ** Events: the calls that are logged *)

Inductive log_priority := LOG_INFO | LOG_WARN | LOG_ERROR.

Inductive Event :=
| EvLog (p : log_priority) (fmt : string)
| EvIap2Init
| EvIap2Cleanup
| EvIap2Connect (addr : list byte)
| EvIap2Disconnect (addr : list byte)
| EvIap2SendData (len : Z) (buf : list byte)
| EvThrowIOException (errno : Z)
| EvCallVoidMethod (obj : option jglobal) (mid : option jmethodID)
                   (args : list jvalue)
| EvClearException (fn : string)
| EvDeleteLocalRef (r : option jref)
| EvNewGlobalRef (obj : jobject) (res : option jglobal)
| EvDeleteGlobalRef (g : jglobal)
| EvReleaseByteArrayElements (arr : jbyteArray) (mode : Z).

(** ** State *)

Record State := mkState {
  (* the file's static variables *)
  method_onConnectionStateChanged : option jmethodID;
  method_onServiceStateChanged : option jmethodID;
  method_onDataRx : option jmethodID;
  method_onError : option jmethodID;
  sBluetoothIap2Interface : option btiap2_interface_t;
  mCallbacksObj : option jglobal;
  sCallbackEnv : option JNIEnv;
  (* the Java side *)
  jheap : list jobj;
  jglobals : list (option jobject);
  (* native memory *)
  nmem : Z -> byte
}.

Definition set_methods (a b c d : option jmethodID) (s : State) : State :=
  mkState a b c d (sBluetoothIap2Interface s) (mCallbacksObj s)
          (sCallbackEnv s) (jheap s) (jglobals s) (nmem s).

Definition set_sBluetoothIap2Interface (i : option btiap2_interface_t)
    (s : State) : State :=
  mkState (method_onConnectionStateChanged s) (method_onServiceStateChanged s)
          (method_onDataRx s) (method_onError s) i (mCallbacksObj s)
          (sCallbackEnv s) (jheap s) (jglobals s) (nmem s).

Definition set_mCallbacksObj (o : option jglobal) (s : State) : State :=
  mkState (method_onConnectionStateChanged s) (method_onServiceStateChanged s)
          (method_onDataRx s) (method_onError s) (sBluetoothIap2Interface s) o
          (sCallbackEnv s) (jheap s) (jglobals s) (nmem s).

Definition set_sCallbackEnv (e : option JNIEnv) (s : State) : State :=
  mkState (method_onConnectionStateChanged s) (method_onServiceStateChanged s)
          (method_onDataRx s) (method_onError s) (sBluetoothIap2Interface s)
          (mCallbacksObj s) e (jheap s) (jglobals s) (nmem s).

Definition set_jheap (h : list jobj) (s : State) : State :=
  mkState (method_onConnectionStateChanged s) (method_onServiceStateChanged s)
          (method_onDataRx s) (method_onError s) (sBluetoothIap2Interface s)
          (mCallbacksObj s) (sCallbackEnv s) h (jglobals s) (nmem s).

Definition set_jglobals (g : list (option jobject)) (s : State) : State :=
  mkState (method_onConnectionStateChanged s) (method_onServiceStateChanged s)
          (method_onDataRx s) (method_onError s) (sBluetoothIap2Interface s)
          (mCallbacksObj s) (sCallbackEnv s) (jheap s) g (nmem s).



Definition read_bytes (m : Z -> byte) (p : Z) (n : nat) : list byte :=
  map (fun i => m (p + Z.of_nat i)) (seq 0 n).

(** ** The environment's answers *)

(** What the calls the file cannot decide answer during one run of one of
    its functions. *)
Record World := {
  getCallbackEnv_result : option JNIEnv;
  getJNIEnv_result : option JNIEnv;
  getBluetoothInterface_result : option bt_interface_t;
  NewByteArray_ok : bool;
  NewStringUTF_ok : bool;
  jniCreateFileDescriptor_ok : bool;
  GetByteArrayElements_ok : bool;
  NewGlobalRef_ok : bool
}.

(** ** The monad: reader of the world, state, log of events *)

(** A log entry: the call, and the state in which it was made. *)
Definition Entry : Type := (Event * State)%type.

Definition M (A : Type) : Type := World -> State -> A * State * list Entry.

Definition ret {A} (a : A) : M A := fun _ s => (a, s, []).

Definition bind {A B} (m : M A) (k : A -> M B) : M B :=
  fun w s =>
    let '(a, s1, t1) := m w s in
    let '(b, s2, t2) := k a w s1 in
    (b, s2, t1 ++ t2).

Notation "x <- m ;; k" := (bind m (fun x => k))
  (at level 100, m at next level, right associativity).
Notation "m ;;; k" := (bind m (fun _ => k))
  (at level 100, right associativity).

Definition ask : M World := fun w s => (w, s, []).
Definition get : M State := fun _ s => (s, s, []).
Definition modify (f : State -> State) : M unit := fun _ s => (tt, f s, []).
Definition emit (e : Event) : M unit := fun _ s => (tt, s, [(e, s)]).

Definition result {A} (r : A * State * list Entry) : A := fst (fst r).
Definition state_of {A} (r : A * State * list Entry) : State := snd (fst r).
Definition trace {A} (r : A * State * list Entry) : list Entry := snd r.
Definition events {A} (r : A * State * list Entry) : list Event :=
  map fst (snd r).

(** ** Logging, JNI and helper calls *)

Local Open Scope string_scope.

Definition ALOGI (fmt : string) : M unit := emit (EvLog LOG_INFO fmt).
Definition ALOGW (fmt : string) : M unit := emit (EvLog LOG_WARN fmt).
Definition ALOGE (fmt : string) : M unit := emit (EvLog LOG_ERROR fmt).

(** getCallbackEnv() of AdapterService and AndroidRuntime::getJNIEnv(). *)
Definition getCallbackEnv : M (option JNIEnv) :=
  fun w s => (getCallbackEnv_result w, s, []).
Definition AndroidRuntime_getJNIEnv : M (option JNIEnv) :=
  fun w s => (getJNIEnv_result w, s, []).
Definition getBluetoothInterface : M (option bt_interface_t) :=
  fun w s => (getBluetoothInterface_result w, s, []).

(** A new Java object gets the next free slot of the heap. *)
Definition alloc (o : jobj) : M jref :=
  fun _ s => (length (jheap s), set_jheap (jheap s ++ [o]) s, []).

(** NewByteArray(n): NULL for a negative size (NegativeArraySizeException)
    or when the allocation fails, else a zero-filled array. *)
Definition NewByteArray (n : Z) : M (option jref) :=
  w <- ask ;;
  if (n <? 0)%Z || negb (NewByteArray_ok w) then ret None
  else r <- alloc (JByteArray (repeat Byte.x00 (Z.to_nat n))) ;; ret (Some r).

(** SetByteArrayRegion(arr, start, len, buf) copies [len] bytes of native
    memory from [buf] into the array; out of the array's bounds it copies
    nothing (ArrayIndexOutOfBoundsException). *)
Definition set_region (arr : jref) (start len : Z) (buf : Z) (s : State) : State :=
  match jheap s !! arr with
  | Some (JByteArray l) =>
      if (0 <=? start)%Z && (0 <=? len)%Z
         && (start + len <=? Z.of_nat (length l))%Z
      then set_jheap
             (<[arr := JByteArray
                         (take (Z.to_nat start) l
                          ++ read_bytes (nmem s) buf (Z.to_nat len)
                          ++ drop (Z.to_nat (start + len)) l)]> (jheap s)) s
      else s
  | _ => s
  end.

Definition SetByteArrayRegion (arr : jref) (start len : Z) (buf : Z) : M unit :=
  modify (set_region arr start len buf).

(** NewStringUTF of the text a [char *] points to. *)
Definition NewStringUTF (str : string) : M (option jref) :=
  w <- ask ;;
  if NewStringUTF_ok w then r <- alloc (JString str) ;; ret (Some r)
  else ret None.

(** jniCreateFileDescriptor(env, fd): a java.io.FileDescriptor wrapping
    [fd], or NULL. *)
Definition jniCreateFileDescriptor (fd : Z) : M (option jref) :=
  w <- ask ;;
  if jniCreateFileDescriptor_ok w then r <- alloc (JFileDescriptor fd) ;; ret (Some r)
  else ret None.

(** GetByteArrayElements(arr, NULL): the elements of the array, or NULL
    when they cannot be had (no such array, or the copy fails). *)
Definition GetByteArrayElements (arr : jbyteArray) : M (option (list byte)) :=
  fun w s =>
    (match arr with
     | Some r =>
         match jheap s !! r with
         | Some (JByteArray l) => if GetByteArrayElements_ok w then Some l else None
         | _ => None
         end
     | None => None
     end, s, []).

Definition ReleaseByteArrayElements (arr : jbyteArray) (elems : list byte)
    (mode : Z) : M unit :=
  emit (EvReleaseByteArrayElements arr mode).

Definition DeleteLocalRef (r : option jref) : M unit := emit (EvDeleteLocalRef r).

(** NewGlobalRef(obj): the next free slot of the global reference table
    now pins [obj]; NULL when out of memory. *)
Definition NewGlobalRef (obj : jobject) : M (option jglobal) :=
  fun w s =>
    if NewGlobalRef_ok w
    then let g := length (jglobals s) in
         (Some g, set_jglobals (jglobals s ++ [Some obj]) s,
          [(EvNewGlobalRef obj (Some g), s)])
    else (None, s, [(EvNewGlobalRef obj None, s)]).

(** DeleteGlobalRef(g) frees slot [g]. *)
Definition DeleteGlobalRef (g : jglobal) : M unit :=
  fun _ s => (tt, set_jglobals (<[g := None]> (jglobals s)) s,
              [(EvDeleteGlobalRef g, s)]).

Definition CallVoidMethod (obj : option jglobal) (mid : option jmethodID)
    (args : list jvalue) : M unit :=
  emit (EvCallVoidMethod obj mid args).

Definition checkAndClearExceptionFromCallback (fn : string) : M unit :=
  emit (EvClearException fn).

Definition jniThrowIOException (errno : Z) : M unit :=
  emit (EvThrowIOException errno).

(** GetMethodID(clazz, name, sig): NULL when the class has no such
    method. *)
Definition GetMethodID (clazz : jclass) (name sig : string) : option jmethodID :=
  if existsb (fun m => String.eqb (fst m) name && String.eqb (snd m) sig) clazz
  then Some (name, sig) else None.

(** ** The file's functions *)

Section Iap2.
Context `{Headers}.

Definition checkCallbackThread : M bool :=
  cb <- getCallbackEnv ;;
  modify (set_sCallbackEnv cb) ;;;
  env <- AndroidRuntime_getJNIEnv ;;
  s <- get ;;
  if negb (bool_decide (sCallbackEnv s = env))
     || bool_decide (sCallbackEnv s = None)
  then ret false
  else ret true.

(** The macro CHECK_CALLBACK_ENV, with the rest of the function body as
    its continuation. *)
Definition CHECK_CALLBACK_ENV (rest : M unit) : M unit :=
  ok <- checkCallbackThread ;;
  if negb ok
  then ALOGE "Callback: '%s' is not called on the correct thread"
  else rest.

Definition connection_state_callback (state : btiap2_connection_state_t)
    (bd_addr : Z) : M unit :=
  ALOGI "%s" ;;;
  CHECK_CALLBACK_ENV (
    addr <- NewByteArray sizeof_bt_bdaddr_t ;;
    match addr with
    | None =>
        ALOGE "Fail to new jbyteArray bd addr for connection state" ;;;
        checkAndClearExceptionFromCallback "connection_state_callback"
    | Some a =>
        SetByteArrayRegion a 0 sizeof_bt_bdaddr_t bd_addr ;;;
        s <- get ;;
        CallVoidMethod (mCallbacksObj s) (method_onConnectionStateChanged s)
                       [JInt state; JObject addr] ;;;
        checkAndClearExceptionFromCallback "connection_state_callback" ;;;
        DeleteLocalRef addr
    end).

Definition service_state_callback (state : btiap2_service_state_t)
    (bd_addr : Z) (fd : Z) : M unit :=
  ALOGI "%s" ;;;
  CHECK_CALLBACK_ENV (
    addr <- NewByteArray sizeof_bt_bdaddr_t ;;
    match addr with
    | None =>
        ALOGE "Fail to new jbyteArray bd addr for connection state" ;;;
        checkAndClearExceptionFromCallback "service_state_callback"
    | Some a =>
        let deliver (fileDescriptor : option jref) : M unit :=
          SetByteArrayRegion a 0 sizeof_bt_bdaddr_t bd_addr ;;;
          s <- get ;;
          CallVoidMethod (mCallbacksObj s) (method_onServiceStateChanged s)
                         [JInt state; JObject addr; JObject fileDescriptor] ;;;
          checkAndClearExceptionFromCallback "service_state_callback" ;;;
          DeleteLocalRef addr in
        if (state =? BTIAP2_SERVICE_STATE_CONNECTED)%Z
        then
          fileDescriptor <- jniCreateFileDescriptor fd ;;
          match fileDescriptor with
          | None =>
              ALOGE "Failed to convert file descriptor, fd: %d" ;;;
              DeleteLocalRef addr
          | Some _ => deliver fileDescriptor
          end
        else deliver None
    end).

Definition data_callback (len : Z) (data : Z) : M unit :=
  CHECK_CALLBACK_ENV (
    buf <- NewByteArray (jint_of_uint len) ;;
    match buf with
    | None =>
        ALOGE "Fail to new jbyteArray buf for data callback" ;;;
        checkAndClearExceptionFromCallback "data_callback"
    | Some b =>
        SetByteArrayRegion b 0 (jint_of_uint len) data ;;;
        s <- get ;;
        CallVoidMethod (mCallbacksObj s) (method_onDataRx s)
                       [JInt (jint_of_uint len); JObject buf] ;;;
        checkAndClearExceptionFromCallback "data_callback" ;;;
        DeleteLocalRef buf
    end).

Definition error_callback (error_code : btiap2_error_t)
    (error_string : string) : M unit :=
  CHECK_CALLBACK_ENV (
    js_error_string <- NewStringUTF error_string ;;
    s <- get ;;
    CallVoidMethod (mCallbacksObj s) (method_onError s)
                   [JInt error_code; JObject js_error_string] ;;;
    checkAndClearExceptionFromCallback "error_callback" ;;;
    DeleteLocalRef js_error_string).

Definition classInitNative (clazz : jclass) : M unit :=
  modify (set_methods
    (GetMethodID clazz "onConnectionStateChanged" "(I[B)V")
    (GetMethodID clazz "onServiceStateChanged" "(I[BLjava/io/FileDescriptor;)V")
    (GetMethodID clazz "onDataRx" "(I[B)V")
    (GetMethodID clazz "onError" "(ILjava/lang/String;)V")) ;;;
  ALOGI "%s: succeeds".

(** The two release blocks initializeNative and cleanupNative share, each
    under its own warning text. *)
Definition release_interface (msg : string) : M unit :=
  s <- get ;;
  match sBluetoothIap2Interface s with
  | Some _ =>
      ALOGW msg ;;;
      emit EvIap2Cleanup ;;;
      modify (set_sBluetoothIap2Interface None)
  | None => ret tt
  end.

Definition release_callbacks (msg : string) : M unit :=
  s <- get ;;
  match mCallbacksObj s with
  | Some g =>
      ALOGW msg ;;;
      DeleteGlobalRef g ;;;
      modify (set_mCallbacksObj None)
  | None => ret tt
  end.

Definition initializeNative (object : jobject) : M unit :=
  btInf <- getBluetoothInterface ;;
  match btInf with
  | None => ALOGE "Bluetooth module is not loaded"
  | Some btInf =>
      release_interface
        "Cleaning up Bluetooth IAP2 Interface before initializing..." ;;;
      release_callbacks "Cleaning up Bluetooth IAP2 callback object" ;;;
      modify (set_sBluetoothIap2Interface
                (get_profile_interface btInf BT_PROFILE_IAP2_ID)) ;;;
      s <- get ;;
      match sBluetoothIap2Interface s with
      | None => ALOGE "Failed to get Bluetooth IAP2 Interface"
      | Some iface =>
          emit EvIap2Init ;;;
          let status := iap2_init iface in
          if negb (status =? BT_STATUS_SUCCESS)%Z
          then
            ALOGE "Failed to initialize Bluetooth IAP2, status: %d" ;;;
            modify (set_sBluetoothIap2Interface None)
          else
            g <- NewGlobalRef object ;;
            modify (set_mCallbacksObj g)
      end
  end.

Definition cleanupNative (object : jobject) : M unit :=
  btInf <- getBluetoothInterface ;;
  match btInf with
  | None => ALOGE "Bluetooth module is not loaded"
  | Some _ =>
      release_interface "Cleaning up Bluetooth IAP2 Interface..." ;;;
      release_callbacks "Cleaning up Bluetooth Handsfree callback object"
  end.

Definition connectIap2Native (address : jbyteArray) : M jboolean :=
  ALOGI "%s: sBluetoothIap2Interface: %p" ;;;
  s <- get ;;
  match sBluetoothIap2Interface s with
  | None => ret JNI_FALSE
  | Some iface =>
      addr <- GetByteArrayElements address ;;
      match addr with
      | None => jniThrowIOException EINVAL ;;; ret JNI_FALSE
      | Some a =>
          emit (EvIap2Connect a) ;;;
          let status := iap2_connect iface a in
          (if negb (status =? BT_STATUS_SUCCESS)%Z
           then ALOGE "Failed IAP2 connection, status: %d" else ret tt) ;;;
          ReleaseByteArrayElements address a 0 ;;;
          ret (if (status =? BT_STATUS_SUCCESS)%Z then JNI_TRUE else JNI_FALSE)
      end
  end.

Definition disconnectIap2Native (address : jbyteArray) : M jboolean :=
  s <- get ;;
  match sBluetoothIap2Interface s with
  | None => ret JNI_FALSE
  | Some iface =>
      addr <- GetByteArrayElements address ;;
      match addr with
      | None => jniThrowIOException EINVAL ;;; ret JNI_FALSE
      | Some a =>
          emit (EvIap2Disconnect a) ;;;
          let status := iap2_disconnect iface a in
          (if negb (status =? BT_STATUS_SUCCESS)%Z
           then ALOGE "Failed IAP2 disconnection, status: %d" else ret tt) ;;;
          ReleaseByteArrayElements address a 0 ;;;
          ret (if (status =? BT_STATUS_SUCCESS)%Z then JNI_TRUE else JNI_FALSE)
      end
  end.

Definition sendDataNative (len : Z) (data : jbyteArray) : M jboolean :=
  s <- get ;;
  match sBluetoothIap2Interface s with
  | None => ret JNI_FALSE
  | Some iface =>
      buf <- GetByteArrayElements data ;;
      match buf with
      | None => jniThrowIOException EINVAL ;;; ret JNI_FALSE
      | Some b =>
          emit (EvIap2SendData len b) ;;;
          let status := iap2_send_data iface len b in
          (if negb (status =? BT_STATUS_SUCCESS)%Z
           then ALOGE "Failed IAP2 send data, status: %d" else ret tt) ;;;
          ReleaseByteArrayElements data b 0 ;;;
          ret (if (status =? BT_STATUS_SUCCESS)%Z then JNI_TRUE else JNI_FALSE)
      end
  end.

End Iap2.

(** ** The callback table and what the claims observe *)

(** An event the stack fires through sBluetoothIap2Callbacks, with the
    arguments of its table entry. *)
Inductive StackEvent :=
| ConnectionState (state : btiap2_connection_state_t) (bd_addr : Z)
| ServiceState (state : btiap2_service_state_t) (bd_addr : Z) (fd : Z)
| DataReceived (len : Z) (data : Z)
| ErrorRaised (error_code : btiap2_error_t) (error_string : string).

Definition sBluetoothIap2Callbacks `{Headers} (e : StackEvent) : M unit :=
  match e with
  | ConnectionState state bd_addr => connection_state_callback state bd_addr
  | ServiceState state bd_addr fd => service_state_callback state bd_addr fd
  | DataReceived len data => data_callback len data
  | ErrorRaised error_code error_string => error_callback error_code error_string
  end.

(** The listener is invoked by CallVoidMethod and by nothing else. *)
Definition is_listener_call (e : Event) : bool :=
  match e with EvCallVoidMethod _ _ _ => true | _ => false end.

Definition is_log (e : Event) : bool :=
  match e with EvLog _ _ => true | _ => false end.

(** Calls through the stack's IAP2 interface table. *)
Definition is_native_call (e : Event) : bool :=
  match e with
  | EvIap2Init | EvIap2Cleanup | EvIap2Connect _ | EvIap2Disconnect _
  | EvIap2SendData _ _ => true
  | _ => false
  end.

(** The two releases of cleanup: the interface's cleanup entry and the
    listener's global reference. *)
Definition is_release (e : Event) : bool :=
  match e with EvIap2Cleanup | EvDeleteGlobalRef _ => true | _ => false end.

Definition is_io_exception (e : Event) : bool :=
  match e with EvThrowIOException _ => true | _ => false end.

Definition is_send (e : Event) : bool :=
  match e with EvIap2SendData _ _ => true | _ => false end.

(** The run is on another context than the designated one, or there is no
    designated context: the condition checkCallbackThread answers false
    on. *)
Definition context_mismatch (w : World) : Prop :=
  getCallbackEnv_result w <> getJNIEnv_result w \/ getCallbackEnv_result w = None.

(** The global references that are live: the slots of the table that
    pin an object, counted from [i]. *)
Fixpoint live_from (i : jglobal) (tbl : list (option jobject)) : list jglobal :=
  match tbl with
  | [] => []
  | Some _ :: t => i :: live_from (S i) t
  | None :: t => live_from (S i) t
  end.

Definition live_globals (s : State) : list jglobal :=
  live_from 0%nat (jglobals s).

(** The listener's registration is the global reference the file holds
    in mCallbacksObj.  At most one registration: the live global
    references are that one, or none. *)
Definition one_listener (s : State) : Prop :=
  live_globals s = match mCallbacksObj s with Some g => [g] | None => [] end.

Definition is_new_global_ref (e : Event) : bool :=
  match e with EvNewGlobalRef _ _ => true | _ => false end.

(** Every way into the file: the six native methods of sMethods and the
    four entries of the callback table. *)
Inductive Call :=
| ClassInit (clazz : jclass)
| Initialize (object : jobject)
| Cleanup (object : jobject)
| Connect (address : jbyteArray)
| Disconnect (address : jbyteArray)
| SendData (len : Z) (data : jbyteArray)
| Callback (e : StackEvent).

Definition run_call `{Headers} (c : Call) : M unit :=
  match c with
  | ClassInit clazz => classInitNative clazz
  | Initialize object => initializeNative object
  | Cleanup object => cleanupNative object
  | Connect address => _ <- connectIap2Native address ;; ret tt
  | Disconnect address => _ <- disconnectIap2Native address ;; ret tt
  | SendData len data => _ <- sendDataNative len data ;; ret tt
  | Callback e => sBluetoothIap2Callbacks e
  end.

(** C1 as the specification words it, at one call: the buffer is
    readable and shorter than the length, an argument error is raised
    and nothing is sent. *)
Definition rejects_short_buffer `{Headers} (len : Z) (data : jbyteArray)
    (w : World) (s : State) : Prop :=
  forall buf : list byte,
    result (GetByteArrayElements data w s) = Some buf ->
    (Z.of_nat (length buf) < len)%Z ->
    existsb is_io_exception (events (sendDataNative len data w s)) = true
    /\ existsb is_send (events (sendDataNative len data w s)) = false.

(** ** What the further properties observe *)

(** How many times a run invokes the listener. *)
Definition listener_calls (evs : list Event) : nat :=
  length (List.filter is_listener_call evs).




(** The method id a callback hands to CallVoidMethod. *)
Definition handler_of (e : StackEvent) (s : State) : option jmethodID :=
  match e with
  | ConnectionState _ _ => method_onConnectionStateChanged s
  | ServiceState _ _ _ => method_onServiceStateChanged s
  | DataReceived _ _ => method_onDataRx s
  | ErrorRaised _ _ => method_onError s
  end.

(** Past the gate, what a callback still needs before it reaches
    CallVoidMethod: the array it allocates, and for a CONNECTED service
    state the FileDescriptor object.  error_callback needs nothing. *)
Definition can_deliver `{Headers} (e : StackEvent) (w : World) : bool :=
  match e with
  | ConnectionState _ _ =>
      (0 <=? sizeof_bt_bdaddr_t)%Z && NewByteArray_ok w
  | ServiceState state _ _ =>
      (0 <=? sizeof_bt_bdaddr_t)%Z && NewByteArray_ok w
      && (negb (state =? BTIAP2_SERVICE_STATE_CONNECTED)%Z
          || jniCreateFileDescriptor_ok w)
  | DataReceived len _ =>
      (0 <=? jint_of_uint len)%Z && NewByteArray_ok w
  | ErrorRaised _ _ => true
  end.


Definition is_init (e : Event) : bool :=
  match e with EvIap2Init => true | _ => false end.

Definition is_delete_local_ref (r : jref) (e : Event) : bool :=
  match e with
  | EvDeleteLocalRef (Some r') => Nat.eqb r r'
  | _ => false
  end.

(** ** Sample headers, worlds and states *)

#[local] Instance sample_headers : Headers := {|
  BT_STATUS_SUCCESS := 0;
  BTIAP2_SERVICE_STATE_CONNECTED := 2;
  BT_PROFILE_IAP2_ID := "iap2";
  sizeof_bt_bdaddr_t := 6;
  EINVAL := 22
|}.

(** An interface that accepts everything. *)
Definition sample_iface : btiap2_interface_t := {|
  iap2_init := 0;
  iap2_connect := fun _ => 0;
  iap2_disconnect := fun _ => 0;
  iap2_send_data := fun _ _ => 0
|}.

Definition sample_btInf : bt_interface_t := {|
  get_profile_interface := fun _ => Some sample_iface
|}.

(** The callback thread is thread 1 and every allocation succeeds. *)
Definition world_ok : World := {|
  getCallbackEnv_result := Some 1%nat;
  getJNIEnv_result := Some 1%nat;
  getBluetoothInterface_result := Some sample_btInf;
  NewByteArray_ok := true;
  NewStringUTF_ok := true;
  jniCreateFileDescriptor_ok := true;
  GetByteArrayElements_ok := true;
  NewGlobalRef_ok := true
|}.

(** The callback arrives on thread 2. *)
Definition world_wrong_thread : World := {|
  getCallbackEnv_result := Some 1%nat;
  getJNIEnv_result := Some 2%nat;
  getBluetoothInterface_result := Some sample_btInf;
  NewByteArray_ok := true;
  NewStringUTF_ok := true;
  jniCreateFileDescriptor_ok := true;
  GetByteArrayElements_ok := true;
  NewGlobalRef_ok := true
|}.

(** No FileDescriptor object can be made. *)
Definition world_no_fd : World := {|
  getCallbackEnv_result := Some 1%nat;
  getJNIEnv_result := Some 1%nat;
  getBluetoothInterface_result := Some sample_btInf;
  NewByteArray_ok := true;
  NewStringUTF_ok := true;
  jniCreateFileDescriptor_ok := false;
  GetByteArrayElements_ok := true;
  NewGlobalRef_ok := true
|}.

(** The array's elements cannot be had. *)
Definition world_no_elements : World := {|
  getCallbackEnv_result := Some 1%nat;
  getJNIEnv_result := Some 1%nat;
  getBluetoothInterface_result := Some sample_btInf;
  NewByteArray_ok := true;
  NewStringUTF_ok := true;
  jniCreateFileDescriptor_ok := true;
  GetByteArrayElements_ok := false;
  NewGlobalRef_ok := true
|}.

(** The Bluetooth module is not loaded. *)
Definition world_no_module : World := {|
  getCallbackEnv_result := Some 1%nat;
  getJNIEnv_result := Some 1%nat;
  getBluetoothInterface_result := None;
  NewByteArray_ok := true;
  NewStringUTF_ok := true;
  jniCreateFileDescriptor_ok := true;
  GetByteArrayElements_ok := true;
  NewGlobalRef_ok := true
|}.

(** The module is loaded, but it has no IAP2 profile interface. *)
Definition world_no_profile : World := {|
  getCallbackEnv_result := Some 1%nat;
  getJNIEnv_result := Some 1%nat;
  getBluetoothInterface_result :=
    Some {| get_profile_interface := fun _ => None |};
  NewByteArray_ok := true;
  NewStringUTF_ok := true;
  jniCreateFileDescriptor_ok := true;
  GetByteArrayElements_ok := true;
  NewGlobalRef_ok := true
|}.

(** An interface that refuses every request with status 1. *)
Definition refusing_iface : btiap2_interface_t := {|
  iap2_init := 0;
  iap2_connect := fun _ => 1;
  iap2_disconnect := fun _ => 1;
  iap2_send_data := fun _ _ => 1
|}.

Definition sample_mem : Z -> byte :=
  fun p => if (p =? 100)%Z then Byte.x0a
           else if (p =? 101)%Z then Byte.x0b
           else if (p =? 102)%Z then Byte.x0c
           else Byte.x00.

(** Nothing initialized.  The heap holds the listener (slot 0) and a
    three-byte array (slot 1). *)
Definition state_clean : State := {|
  method_onConnectionStateChanged := Some ("onConnectionStateChanged", "(I[B)V");
  method_onServiceStateChanged :=
    Some ("onServiceStateChanged", "(I[BLjava/io/FileDescriptor;)V");
  method_onDataRx := Some ("onDataRx", "(I[B)V");
  method_onError := Some ("onError", "(ILjava/lang/String;)V");
  sBluetoothIap2Interface := None;
  mCallbacksObj := None;
  sCallbackEnv := None;
  jheap := [JInstance "com/android/bluetooth/iap2/Iap2StateMachine";
            JByteArray [Byte.x01; Byte.x02; Byte.x03]];
  jglobals := [];
  nmem := sample_mem
|}.

(** Initialized: the interface is active and global reference 0 pins the
    listener. *)
Definition state_active : State := {|
  method_onConnectionStateChanged := Some ("onConnectionStateChanged", "(I[B)V");
  method_onServiceStateChanged :=
    Some ("onServiceStateChanged", "(I[BLjava/io/FileDescriptor;)V");
  method_onDataRx := Some ("onDataRx", "(I[B)V");
  method_onError := Some ("onError", "(ILjava/lang/String;)V");
  sBluetoothIap2Interface := Some sample_iface;
  mCallbacksObj := Some 0%nat;
  sCallbackEnv := None;
  jheap := [JInstance "com/android/bluetooth/iap2/Iap2StateMachine";
            JByteArray [Byte.x01; Byte.x02; Byte.x03]];
  jglobals := [Some 0%nat];
  nmem := sample_mem
|}.

(** ** The gate *)

Section Gate.
Context `{Headers}.

Lemma checkCallbackThread_run (w : World) (s : State) :
  checkCallbackThread w s =
    (negb (negb (bool_decide (getCallbackEnv_result w = getJNIEnv_result w))
           || bool_decide (getCallbackEnv_result w = None)),
     set_sCallbackEnv (getCallbackEnv_result w) s, []).
Proof.
  unfold checkCallbackThread, bind, getCallbackEnv, AndroidRuntime_getJNIEnv,
    modify, get, ret; simpl.
  destruct (negb _ || _); reflexivity.
Qed.

Lemma CHECK_CALLBACK_ENV_dropped (rest : M unit) (w : World) (s : State) :
  context_mismatch w ->
  CHECK_CALLBACK_ENV rest w s =
    (tt, set_sCallbackEnv (getCallbackEnv_result w) s,
     [(EvLog LOG_ERROR "Callback: '%s' is not called on the correct thread",
       set_sCallbackEnv (getCallbackEnv_result w) s)]).
Proof.
  intros Hm. unfold CHECK_CALLBACK_ENV, bind.
  rewrite checkCallbackThread_run.
  assert (E : negb (bool_decide (getCallbackEnv_result w = getJNIEnv_result w))
              || bool_decide (getCallbackEnv_result w = None) = true).
  { destruct Hm as [Hne | Hn].
    - rewrite bool_decide_eq_false_2 by exact Hne. reflexivity.
    - rewrite (bool_decide_eq_true_2 _ Hn). apply orb_true_r. }
  rewrite E. reflexivity.
Qed.

Lemma CHECK_CALLBACK_ENV_passed (rest : M unit) (w : World) (s : State) :
  ~ context_mismatch w ->
  CHECK_CALLBACK_ENV rest w s =
    rest w (set_sCallbackEnv (getCallbackEnv_result w) s).
Proof.
  intros Hm. unfold CHECK_CALLBACK_ENV, bind.
  rewrite checkCallbackThread_run.
  assert (E : negb (bool_decide (getCallbackEnv_result w = getJNIEnv_result w))
              || bool_decide (getCallbackEnv_result w = None) = false).
  { apply orb_false_intro.
    - apply negb_false_iff, bool_decide_eq_true_2.
      destruct (decide (getCallbackEnv_result w = getJNIEnv_result w)) as [|n];
        [assumption | exfalso; apply Hm; left; exact n].
    - apply bool_decide_eq_false_2. intros E. apply Hm. right. exact E. }
  rewrite E. simpl. destruct (rest w _) as [[[] s'] t]. reflexivity.
Qed.

Lemma context_mismatch_dec (w : World) :
  {context_mismatch w} + {~ context_mismatch w}.
Proof.
  unfold context_mismatch.
  destruct (decide (getCallbackEnv_result w = getJNIEnv_result w));
  destruct (decide (getCallbackEnv_result w = None)); tauto.
Qed.

End Gate.

(** Runs the monad: unfolds its operations and the calls that only read
    the world, write a field or log, and leaves the decisions to the
    proof. *)
Ltac run_m :=
  cbv beta iota zeta delta
    [bind ret ask get modify emit ALOGI ALOGW ALOGE
     CallVoidMethod checkAndClearExceptionFromCallback DeleteLocalRef
     jniThrowIOException ReleaseByteArrayElements getBluetoothInterface
     NewByteArray NewStringUTF jniCreateFileDescriptor alloc
     SetByteArrayRegion DeleteGlobalRef NewGlobalRef GetByteArrayElements
     result state_of events trace fst snd];
  cbn [app map].

(** ** The heap under SetByteArrayRegion *)

Lemma set_region_lookup_ne (arr r : jref) (start len buf : Z) (s : State) :
  r <> arr ->
  jheap (set_region arr start len buf s) !! r = jheap s !! r.
Proof.
  intros Hne. unfold set_region.
  destruct (jheap s !! arr) as [[l | | |] |]; try reflexivity.
  destruct (_ && _); [| reflexivity].
  simpl. apply list_lookup_insert_ne. congruence.
Qed.






(** SetByteArrayRegion writes the heap and nothing else. *)
Lemma set_region_mCallbacksObj (arr : jref) (start len buf : Z) (s : State) :
  mCallbacksObj (set_region arr start len buf s) = mCallbacksObj s.
Proof.
  unfold set_region.
  destruct (jheap s !! arr) as [[l | | |] |]; auto. destruct (_ && _); auto.
Qed.

Lemma set_region_jglobals (arr : jref) (start len buf : Z) (s : State) :
  jglobals (set_region arr start len buf s) = jglobals s.
Proof.
  unfold set_region.
  destruct (jheap s !! arr) as [[l | | |] |]; auto. destruct (_ && _); auto.
Qed.

Lemma set_region_sBluetoothIap2Interface (arr : jref) (start len buf : Z)
    (s : State) :
  sBluetoothIap2Interface (set_region arr start len buf s)
  = sBluetoothIap2Interface s.
Proof.
  unfold set_region.
  destruct (jheap s !! arr) as [[l | | |] |]; auto. destruct (_ && _); auto.
Qed.

Create Rewrite HintDb statics.
#[local] Hint Rewrite set_region_mCallbacksObj set_region_jglobals
  set_region_sBluetoothIap2Interface : statics.

(** ** The callbacks *)

(** What a callback does when the gate is shut: the entry log of the two
    state callbacks, the gate's error log, and nothing else. *)
Lemma callback_dropped_run `{Headers} (e : StackEvent) (w : World) (s : State) :
  context_mismatch w ->
  sBluetoothIap2Callbacks e w s =
    (tt, set_sCallbackEnv (getCallbackEnv_result w) s,
     (match e with
      | ConnectionState _ _ | ServiceState _ _ _ => [(EvLog LOG_INFO "%s", s)]
      | _ => []
      end
      ++ [(EvLog LOG_ERROR "Callback: '%s' is not called on the correct thread",
           set_sCallbackEnv (getCallbackEnv_result w) s)])%list).
Proof.
  intros Hm.
  destruct e; simpl;
    unfold connection_state_callback, service_state_callback, data_callback,
      error_callback;
    try (unfold bind at 1; unfold ALOGI, emit; cbv beta iota);
    rewrite (CHECK_CALLBACK_ENV_dropped _ w s Hm); reflexivity.
Qed.

(** C2. Whichever of the four events the stack fires, when the run is on
    another context than the freshly resolved designated one, or no
    designated context can be resolved, the listener is not invoked; the
    only thing that leaves the file is log lines, and the state keeps
    nothing of the event (only the cached context is refreshed), so
    nothing is there to be replayed later. *)
Theorem mismatched_context_drops_event `{Headers}
    (e : StackEvent) (w : World) (s : State) :
  context_mismatch w ->
  existsb is_listener_call (events (sBluetoothIap2Callbacks e w s)) = false
  /\ forallb is_log (events (sBluetoothIap2Callbacks e w s)) = true
  /\ state_of (sBluetoothIap2Callbacks e w s)
     = set_sCallbackEnv (getCallbackEnv_result w) s.
Proof.
  intros Hm. rewrite (callback_dropped_run e w s Hm).
  unfold events, state_of; simpl. destruct e; simpl; auto.
Qed.

Lemma mismatched_context_drops_event_witness :
  context_mismatch world_wrong_thread
  /\ existsb is_listener_call
       (events (sBluetoothIap2Callbacks (DataReceived 3 100)
                  world_wrong_thread state_active)) = false.
Proof.
  assert (Hm : context_mismatch world_wrong_thread)
    by (left; simpl; discriminate).
  split; [exact Hm |].
  exact (proj1 (mismatched_context_drops_event (DataReceived 3 100)
                  world_wrong_thread state_active Hm)).
Defined.

(** C3. Whenever service_state_callback invokes the listener, the call
    is onServiceStateChanged(state, addr, handle) with a non-null address
    array, and the handle is non-null exactly when the state is
    BTIAP2_SERVICE_STATE_CONNECTED; a non-null handle is a FileDescriptor
    object wrapping the descriptor the stack supplied. *)
Theorem service_state_handle_iff_connected `{Headers}
    (state : btiap2_service_state_t) (bd_addr fd : Z) (w : World) (s : State)
    (obj : option jglobal) (mid : option jmethodID) (args : list jvalue) :
  In (EvCallVoidMethod obj mid args)
     (events (service_state_callback state bd_addr fd w s)) ->
  exists (addr : jref) (handle : option jref),
    args = [JInt state; JObject (Some addr); JObject handle]
    /\ (is_Some handle <-> state = BTIAP2_SERVICE_STATE_CONNECTED)
    /\ (forall r, handle = Some r ->
          jheap (state_of (service_state_callback state bd_addr fd w s)) !! r
          = Some (JFileDescriptor fd)).
Proof.
  unfold service_state_callback.
  destruct (context_mismatch_dec w) as [Hm | Hm].
  - run_m. rewrite (CHECK_CALLBACK_ENV_dropped _ w s Hm). run_m.
    intros [E | [E | []]]; discriminate E.
  - run_m. rewrite (CHECK_CALLBACK_ENV_passed _ w s Hm).
    set (s0 := set_sCallbackEnv (getCallbackEnv_result w) s).
    run_m.
    destruct ((sizeof_bt_bdaddr_t <? 0)%Z || negb (NewByteArray_ok w)); run_m.
    { intros [E | [E | [E | []]]]; discriminate E. }
    destruct (state =? BTIAP2_SERVICE_STATE_CONNECTED)%Z eqn:Est; run_m.
    + destruct (jniCreateFileDescriptor_ok w); run_m.
      * intros [E | [E | [E | [E | []]]]]; try discriminate E.
        injection E as _ _ <-.
        eexists _, _. split; [reflexivity |]. split.
        { split; [intros _; apply Z.eqb_eq, Est | intros _; eexists; reflexivity]. }
        intros r [= <-].
        rewrite set_region_lookup_ne.
        2:{ simpl. rewrite length_app. simpl. lia. }
        simpl. apply list_lookup_middle. reflexivity.
      * intros [E | [E | [E | []]]]; discriminate E.
    + intros [E | [E | [E | [E | []]]]]; try discriminate E.
      injection E as _ _ <-.
      eexists _, _. split; [reflexivity |]. split.
      { split; [intros [x Hx]; discriminate Hx |].
        intros ->. rewrite Z.eqb_refl in Est. discriminate Est. }
      intros r [=].
Qed.

Lemma service_state_handle_iff_connected_witness :
  exists (addr : jref) (handle : option jref),
    [JInt 2; JObject (Some 2%nat); JObject (Some 3%nat)]
    = [JInt 2; JObject (Some addr); JObject handle]
    /\ (is_Some handle <-> 2%Z = BTIAP2_SERVICE_STATE_CONNECTED)
    /\ (forall r, handle = Some r ->
          jheap (state_of (service_state_callback 2 100 7 world_ok state_active))
            !! r
          = Some (JFileDescriptor 7)).
Proof.
  apply (service_state_handle_iff_connected 2 100 7 world_ok state_active
           (Some 0%nat)
           (Some ("onServiceStateChanged", "(I[BLjava/io/FileDescriptor;)V"))).
  vm_compute. right. left. reflexivity.
Defined.

(** C4. When the service state is BTIAP2_SERVICE_STATE_CONNECTED and no
    FileDescriptor object can be made of the raw descriptor,
    service_state_callback never invokes the listener; when the callback
    got as far as making the handle (right context, address array
    allocated), it logs the error, drops the address array and stops. *)
Theorem failed_handle_aborts_delivery `{Headers}
    (state : btiap2_service_state_t) (bd_addr fd : Z) (w : World) (s : State) :
  state = BTIAP2_SERVICE_STATE_CONNECTED ->
  jniCreateFileDescriptor_ok w = false ->
  existsb is_listener_call
    (events (service_state_callback state bd_addr fd w s)) = false
  /\ (~ context_mismatch w ->
      result (NewByteArray sizeof_bt_bdaddr_t w s) <> None ->
      events (service_state_callback state bd_addr fd w s)
      = [EvLog LOG_INFO "%s";
         EvLog LOG_ERROR "Failed to convert file descriptor, fd: %d";
         EvDeleteLocalRef (Some (length (jheap s)))]).
Proof.
  intros -> Hfd.
  unfold service_state_callback.
  destruct (context_mismatch_dec w) as [Hm | Hm].
  - run_m. rewrite (CHECK_CALLBACK_ENV_dropped _ w s Hm). run_m.
    split; [reflexivity | tauto].
  - run_m. rewrite (CHECK_CALLBACK_ENV_passed _ w s Hm).
    set (s0 := set_sCallbackEnv (getCallbackEnv_result w) s).
    run_m.
    destruct ((sizeof_bt_bdaddr_t <? 0)%Z || negb (NewByteArray_ok w)); run_m.
    { split; [reflexivity | intros _ Hne; exfalso; apply Hne; reflexivity]. }
    rewrite Z.eqb_refl. run_m. rewrite Hfd. run_m.
    split; reflexivity.
Qed.

Lemma failed_handle_aborts_delivery_witness :
  existsb is_listener_call
    (events (service_state_callback 2 100 7 world_no_fd state_active)) = false.
Proof.
  exact (proj1 (failed_handle_aborts_delivery 2 100 7 world_no_fd state_active
                  eq_refl eq_refl)).
Defined.




(** ** Initialization and cleanup *)

Lemma cleanup_without_module_run
    (object : jobject) (w : World) (s : State) :
  getBluetoothInterface_result w = None ->
  cleanupNative object w s
  = (tt, s, [(EvLog LOG_ERROR "Bluetooth module is not loaded", s)]).
Proof.
  intros Hw. unfold cleanupNative. run_m. rewrite Hw. reflexivity.
Qed.

(** C10. With no Bluetooth module loaded, cleanupNative only logs:
    the state is the one it started from, interface reference and
    listener registration included, and neither the interface's cleanup
    nor the release of the listener's reference happens. *)
Theorem cleanup_without_module_changes_nothing
    (object : jobject) (w : World) (s : State) :
  getBluetoothInterface_result w = None ->
  state_of (cleanupNative object w s) = s
  /\ existsb is_release (events (cleanupNative object w s)) = false
  /\ events (cleanupNative object w s)
     = [EvLog LOG_ERROR "Bluetooth module is not loaded"].
Proof.
  intros Hw. rewrite (cleanup_without_module_run object w s Hw).
  repeat split.
Qed.

Lemma cleanup_without_module_changes_nothing_witness :
  state_of (cleanupNative 0%nat world_no_module state_active) = state_active
  /\ sBluetoothIap2Interface state_active = Some sample_iface
  /\ mCallbacksObj state_active = Some 0%nat.
Proof.
  split; [| split; reflexivity].
  exact (proj1 (cleanup_without_module_changes_nothing 0%nat world_no_module
                  state_active eq_refl)).
Defined.

(** After cleanupNative ran with the module loaded, nothing is left to
    release. *)
Lemma cleanup_clears (object : jobject) (w : World) (s : State) :
  getBluetoothInterface_result w <> None ->
  sBluetoothIap2Interface (state_of (cleanupNative object w s)) = None
  /\ mCallbacksObj (state_of (cleanupNative object w s)) = None.
Proof.
  intros Hw. unfold cleanupNative, release_interface, release_callbacks.
  run_m. destruct (getBluetoothInterface_result w); [| congruence]. run_m.
  destruct (sBluetoothIap2Interface s) eqn:Ei; run_m;
    destruct (mCallbacksObj s) eqn:Ec; run_m; cbn; rewrite ?Ec; run_m; cbn; auto.
Qed.

(** On a state with nothing to release, cleanupNative changes nothing and
    releases nothing, whatever the world. *)
Lemma cleanup_on_clean (object : jobject) (w : World) (s : State) :
  sBluetoothIap2Interface s = None ->
  mCallbacksObj s = None ->
  state_of (cleanupNative object w s) = s
  /\ existsb is_release (events (cleanupNative object w s)) = false.
Proof.
  intros Ei Ec. unfold cleanupNative, release_interface, release_callbacks.
  run_m. destruct (getBluetoothInterface_result w); run_m.
  - rewrite Ei. run_m. rewrite Ec. run_m. auto.
  - auto.
Qed.

(** Two calls of cleanupNative, each with its own world: the second
    one finds nothing to do unless the module got loaded between the
    two. *)
Lemma cleanup_twice (object : jobject) (w1 w2 : World) (s : State) :
  (getBluetoothInterface_result w1 = None ->
   getBluetoothInterface_result w2 = None) ->
  state_of (cleanupNative object w2 (state_of (cleanupNative object w1 s)))
  = state_of (cleanupNative object w1 s)
  /\ existsb is_release
       (events (cleanupNative object w2 (state_of (cleanupNative object w1 s))))
     = false.
Proof.
  intros Hw.
  destruct (getBluetoothInterface_result w1) as [btInf |] eqn:Hw1.
  - assert (Hne : getBluetoothInterface_result w1 <> None) by congruence.
    destruct (cleanup_clears object w1 s Hne) as [Ei Ec].
    apply cleanup_on_clean; assumption.
  - rewrite (cleanup_without_module_run object w1 s Hw1).
    rewrite (cleanup_without_module_run object w2 _ (Hw eq_refl)).
    split; reflexivity.
Qed.

(** C6. cleanupNative twice in succession (the same world answering both
    calls): the state after the second call is the state after the first,
    and the second call neither calls the interface's cleanup nor releases
    a listener reference. *)
Theorem cleanup_idempotent (object : jobject) (w : World) (s : State) :
  state_of (cleanupNative object w (state_of (cleanupNative object w s)))
  = state_of (cleanupNative object w s)
  /\ existsb is_release
       (events (cleanupNative object w (state_of (cleanupNative object w s))))
     = false.
Proof.
  destruct (getBluetoothInterface_result w) as [btInf |] eqn:Hw.
  - assert (Hne : getBluetoothInterface_result w <> None) by congruence.
    destruct (cleanup_clears object w s Hne) as [Ei Ec].
    apply cleanup_on_clean; assumption.
  - rewrite !(cleanup_without_module_run object w _ Hw).
    split; reflexivity.
Qed.

(** ** The table of global references *)

Lemma live_from_app (i : jglobal) (t u : list (option jobject)) :
  live_from i (t ++ u)
  = (live_from i t ++ live_from (i + length t)%nat u)%list.
Proof.
  revert i. induction t as [| [o |] t IH]; intros i; simpl.
  - rewrite Nat.add_0_r. reflexivity.
  - rewrite IH. replace (i + S (length t))%nat with (S i + length t)%nat by lia.
    reflexivity.
  - rewrite IH. replace (i + S (length t))%nat with (S i + length t)%nat by lia.
    reflexivity.
Qed.

Lemma live_from_ge (i x : jglobal) (t : list (option jobject)) :
  In x (live_from i t) -> (i <= x < i + length t)%nat.
Proof.
  revert i. induction t as [| [o |] t IH]; intros i; simpl.
  - intros [].
  - intros [<- | Hx]; [lia | apply IH in Hx; lia].
  - intros Hx. apply IH in Hx. lia.
Qed.

(** Freeing the only live slot leaves none. *)
Lemma live_from_delete (i g : jglobal) (t : list (option jobject)) :
  live_from i t = [(i + g)%nat] -> live_from i (<[g := None]> t) = [].
Proof.
  revert i g. induction t as [| [o |] t IH]; intros i g; simpl.
  - discriminate.
  - intros [= Hi Ht]. assert (g = 0%nat) as -> by lia. simpl. exact Ht.
  - intros Ht. destruct g as [| g]; simpl.
    + assert (Hin : In (i + 0)%nat (live_from (S i) t))
        by (rewrite Ht; left; reflexivity).
      apply live_from_ge in Hin. lia.
    + apply IH. rewrite Ht. f_equal. lia.
Qed.

Lemma one_listener_frame (s s' : State) :
  jglobals s' = jglobals s -> mCallbacksObj s' = mCallbacksObj s ->
  one_listener s -> one_listener s'.
Proof.
  unfold one_listener, live_globals. intros -> ->. exact id.
Qed.

Lemma release_interface_run (msg : string) (w : World) (s : State) :
  release_interface msg w s
  = match sBluetoothIap2Interface s with
    | Some _ => (tt, set_sBluetoothIap2Interface None s,
                 [(EvLog LOG_WARN msg, s); (EvIap2Cleanup, s)])
    | None => (tt, s, [])
    end.
Proof.
  unfold release_interface. run_m.
  destruct (sBluetoothIap2Interface s); reflexivity.
Qed.

Lemma release_callbacks_run (msg : string) (w : World) (s : State) :
  release_callbacks msg w s
  = match mCallbacksObj s with
    | Some g => (tt, set_mCallbacksObj None
                       (set_jglobals (<[g := None]> (jglobals s)) s),
                 [(EvLog LOG_WARN msg, s); (EvDeleteGlobalRef g, s)])
    | None => (tt, s, [])
    end.
Proof.
  unfold release_callbacks. run_m.
  destruct (mCallbacksObj s); reflexivity.
Qed.

(** The callbacks and the three requests leave the listener's
    registration alone. *)
Lemma callbacks_keep_registration `{Headers} (e : StackEvent) (w : World)
    (s : State) :
  jglobals (state_of (sBluetoothIap2Callbacks e w s)) = jglobals s
  /\ mCallbacksObj (state_of (sBluetoothIap2Callbacks e w s)) = mCallbacksObj s.
Proof.
  destruct (context_mismatch_dec w) as [Hm | Hm].
  - rewrite (callback_dropped_run e w s Hm). split; reflexivity.
  - destruct e; simpl;
      unfold connection_state_callback, service_state_callback, data_callback,
        error_callback; run_m;
      rewrite (CHECK_CALLBACK_ENV_passed _ w s Hm); run_m.
    + destruct (_ || _); run_m; autorewrite with statics; split; reflexivity.
    + destruct (_ || _); run_m; [split; reflexivity |].
      destruct (state =? _)%Z; run_m;
        [destruct (jniCreateFileDescriptor_ok w); run_m |];
        autorewrite with statics; split; reflexivity.
    + destruct (_ || _); run_m; autorewrite with statics; split; reflexivity.
    + destruct (NewStringUTF_ok w); run_m; split; reflexivity.
Qed.

Lemma requests_keep_state `{Headers} (w : World) (s : State)
    (address : jbyteArray) (len : Z) :
  state_of (connectIap2Native address w s) = s
  /\ state_of (disconnectIap2Native address w s) = s
  /\ state_of (sendDataNative len address w s) = s.
Proof.
  unfold connectIap2Native, disconnectIap2Native, sendDataNative. run_m.
  destruct (sBluetoothIap2Interface s) as [iface |]; run_m; [| auto].
  destruct address as [r |]; run_m; [| auto].
  destruct (jheap s !! r) as [[l | | |] |]; run_m; auto.
  destruct (GetByteArrayElements_ok w); run_m; [| auto].
  repeat split.
  - destruct (negb _); reflexivity.
  - destruct (negb _); reflexivity.
  - destruct (negb _); reflexivity.
Qed.

Lemma cleanup_keeps_one_listener (object : jobject) (w : World)
    (s : State) :
  one_listener s -> one_listener (state_of (cleanupNative object w s)).
Proof.
  intros Hs. unfold cleanupNative. run_m.
  destruct (getBluetoothInterface_result w); run_m; [| exact Hs].
  rewrite release_interface_run.
  unfold one_listener, live_globals in *.
  destruct (mCallbacksObj s) as [g |] eqn:Ec;
    destruct (sBluetoothIap2Interface s); run_m; rewrite release_callbacks_run;
    cbn [mCallbacksObj set_sBluetoothIap2Interface]; rewrite Ec; run_m; cbn;
    rewrite ?Ec; try exact Hs; apply (live_from_delete 0%nat); exact Hs.
Qed.

(** What initializeNative does when it gets as far as NewGlobalRef on a
    state that holds a registration: the old reference is released, then
    the interface is fetched and initialized, then the new reference is
    made and kept. *)
Lemma initialize_run `{Headers} (object : jobject) (w : World) (s : State)
    (g : jglobal) (r : option jglobal) :
  mCallbacksObj s = Some g ->
  In (EvNewGlobalRef object r) (events (initializeNative object w s)) ->
  mCallbacksObj (state_of (initializeNative object w s)) = r
  /\ jglobals (state_of (initializeNative object w s))
     = (<[g := None]> (jglobals s)
        ++ match r with Some _ => [Some object] | None => [] end)%list
  /\ (forall g', r = Some g' -> g' = length (jglobals s))
  /\ exists pre : list Event,
       existsb is_new_global_ref pre = false
       /\ events (initializeNative object w s)
          = (pre ++ [EvDeleteGlobalRef g; EvIap2Init;
                     EvNewGlobalRef object r])%list.
Proof.
  intros Hg. unfold initializeNative. run_m.
  destruct (getBluetoothInterface_result w) as [btInf |]; run_m.
  2:{ intros [E | []]; discriminate E. }
  rewrite release_interface_run.
  destruct (sBluetoothIap2Interface s) as [old |]; run_m;
    rewrite release_callbacks_run; cbn [mCallbacksObj set_sBluetoothIap2Interface];
    rewrite Hg; run_m; cbn;
    destruct (get_profile_interface btInf BT_PROFILE_IAP2_ID) as [iface |];
    run_m; cbn.
  all: try (destruct (negb (iap2_init iface =? BT_STATUS_SUCCESS)%Z); run_m; cbn).
  all: try (destruct (NewGlobalRef_ok w); run_m; cbn).
  all: intros Hin;
    repeat (destruct Hin as [Hin | Hin]; try discriminate Hin); try contradiction.
  all: injection Hin as <-.
  all: rewrite ?length_insert, ?app_nil_r.
  all: repeat split; try (intros g' [= <-]; reflexivity); try discriminate.
  all: try (eexists [_; _; _]; split; [| reflexivity]; reflexivity).
  all: try (eexists [_]; split; [| reflexivity]; reflexivity).
Qed.

Lemma initialize_keeps_one_listener `{Headers} (object : jobject) (w : World)
    (s : State) :
  one_listener s -> one_listener (state_of (initializeNative object w s)).
Proof.
  intros Hs. unfold initializeNative. run_m.
  destruct (getBluetoothInterface_result w) as [btInf |]; run_m; [| exact Hs].
  rewrite release_interface_run.
  unfold one_listener, live_globals in *.
  destruct (mCallbacksObj s) as [g |] eqn:Ec;
    destruct (sBluetoothIap2Interface s) as [old |]; run_m;
    rewrite release_callbacks_run;
    cbn [mCallbacksObj set_sBluetoothIap2Interface]; rewrite Ec; run_m; cbn;
    destruct (get_profile_interface btInf BT_PROFILE_IAP2_ID) as [iface |];
    run_m; cbn.
  all: try (destruct (negb (iap2_init iface =? BT_STATUS_SUCCESS)%Z); run_m; cbn).
  all: try (destruct (NewGlobalRef_ok w); run_m; cbn).
  all: rewrite ?live_from_app, ?length_insert; cbn.
  all: rewrite ?(live_from_delete 0%nat g _ Hs), ?Hs, ?Ec; reflexivity.
Qed.

(** C7. At most one listener registration at any time.  Whatever way
    the file is entered (a native method or a callback), a state in which
    the live global references are exactly the one held in mCallbacksObj
    (or none) is left in such a state.  And when initializeNative, on a
    state that holds a registration, gets as far as making the new
    reference, the old reference was released before: the run ends with
    DeleteGlobalRef(old), the interface's init, NewGlobalRef(object), no
    other NewGlobalRef came earlier, and what NewGlobalRef answered is what
    mCallbacksObj holds afterwards, a reference other than the old one. *)
Theorem one_listener_at_a_time `{Headers} (c : Call) (w : World) (s : State) :
  one_listener s ->
  one_listener (state_of (run_call c w s))
  /\ (forall (object : jobject) (g : jglobal) (r : option jglobal),
        c = Initialize object ->
        mCallbacksObj s = Some g ->
        In (EvNewGlobalRef object r) (events (run_call c w s)) ->
        mCallbacksObj (state_of (run_call c w s)) = r
        /\ r <> Some g
        /\ exists pre : list Event,
             existsb is_new_global_ref pre = false
             /\ events (run_call c w s)
                = (pre ++ [EvDeleteGlobalRef g; EvIap2Init;
                           EvNewGlobalRef object r])%list).
Proof.
  intros Hs. split.
  - destruct c as [clazz | object | object | address | address | len data | e];
      simpl.
    + unfold classInitNative. run_m. exact Hs.
    + apply initialize_keeps_one_listener, Hs.
    + apply cleanup_keeps_one_listener, Hs.
    + run_m.
      pose proof (proj1 (requests_keep_state w s address 0)) as E.
      unfold state_of in E.
      destruct (connectIap2Native address w s) as [[b s'] t].
      simpl in *. subst s'. exact Hs.
    + run_m.
      pose proof (proj1 (proj2 (requests_keep_state w s address 0))) as E.
      unfold state_of in E.
      destruct (disconnectIap2Native address w s) as [[b s'] t].
      simpl in *. subst s'. exact Hs.
    + run_m.
      pose proof (proj2 (proj2 (requests_keep_state w s data len))) as E.
      unfold state_of in E.
      destruct (sendDataNative len data w s) as [[b s'] t].
      simpl in *. subst s'. exact Hs.
    + destruct (callbacks_keep_registration e w s) as [Eg Ec].
      exact (one_listener_frame s _ Eg Ec Hs).
  - intros object g r -> Hg Hin. simpl in *.
    destruct (initialize_run object w s g r Hg Hin) as (Er & Eg & Hfresh & Hpre).
    split; [exact Er |]. split; [| exact Hpre].
    intros ->. specialize (Hfresh g eq_refl).
    unfold one_listener, live_globals in Hs. rewrite Hg in Hs.
    assert (Hin' : In g (live_from 0%nat (jglobals s)))
      by (rewrite Hs; left; reflexivity).
    apply live_from_ge in Hin'. lia.
Qed.

Lemma one_listener_at_a_time_witness :
  one_listener state_active
  /\ one_listener (state_of (run_call (Initialize 0%nat) world_ok state_active))
  /\ mCallbacksObj (state_of (run_call (Initialize 0%nat) world_ok state_active))
     = Some 1%nat.
Proof.
  assert (Hs : one_listener state_active) by reflexivity.
  destruct (one_listener_at_a_time (Initialize 0%nat) world_ok state_active Hs)
    as [Hinv Hord].
  split; [exact Hs |]. split; [exact Hinv |].
  refine (proj1 (Hord 0%nat 0%nat (Some 1%nat) eq_refl eq_refl _)).
  vm_compute. do 5 right. left. reflexivity.
Defined.


(** ** The requests: connect, disconnect, sendData *)

(** C8. With no active interface (sBluetoothIap2Interface is NULL),
    connectIap2Native, disconnectIap2Native and sendDataNative answer
    JNI_FALSE whatever their arguments, call no entry of the stack's
    interface, raise nothing, and leave the state as it is. *)
Theorem uninitialized_requests_fail `{Headers} (w : World) (s : State)
    (address : jbyteArray) (len : Z) (data : jbyteArray) :
  sBluetoothIap2Interface s = None ->
  (result (connectIap2Native address w s) = JNI_FALSE
   /\ events (connectIap2Native address w s)
      = [EvLog LOG_INFO "%s: sBluetoothIap2Interface: %p"]
   /\ state_of (connectIap2Native address w s) = s)
  /\ (result (disconnectIap2Native address w s) = JNI_FALSE
      /\ events (disconnectIap2Native address w s) = []
      /\ state_of (disconnectIap2Native address w s) = s)
  /\ (result (sendDataNative len data w s) = JNI_FALSE
      /\ events (sendDataNative len data w s) = []
      /\ state_of (sendDataNative len data w s) = s).
Proof.
  intros Hi.
  unfold connectIap2Native, disconnectIap2Native, sendDataNative.
  run_m. rewrite Hi. run_m. repeat split.
Qed.

Lemma uninitialized_requests_fail_witness :
  result (sendDataNative 5 (Some 1%nat) world_ok state_clean) = JNI_FALSE
  /\ existsb is_native_call
       (events (sendDataNative 5 (Some 1%nat) world_ok state_clean)) = false.
Proof.
  destruct (uninitialized_requests_fail world_ok state_clean (Some 1%nat) 5
              (Some 1%nat) eq_refl) as (_ & _ & Hr & He & _).
  split; [exact Hr |]. rewrite He. reflexivity.
Defined.

(** C9. With the interface active, when GetByteArrayElements answers
    NULL for the address (connect, disconnect) or the buffer (sendData),
    the call throws an IOException (jniThrowIOException with EINVAL),
    answers JNI_FALSE, and no entry of the stack's interface is called;
    the state is left as it is. *)
Theorem unreadable_argument_raises_io_error `{Headers} (w : World) (s : State)
    (iface : btiap2_interface_t) (arg : jbyteArray) (len : Z) :
  sBluetoothIap2Interface s = Some iface ->
  result (GetByteArrayElements arg w s) = None ->
  (result (connectIap2Native arg w s) = JNI_FALSE
   /\ events (connectIap2Native arg w s)
      = [EvLog LOG_INFO "%s: sBluetoothIap2Interface: %p";
         EvThrowIOException EINVAL]
   /\ state_of (connectIap2Native arg w s) = s)
  /\ (result (disconnectIap2Native arg w s) = JNI_FALSE
      /\ events (disconnectIap2Native arg w s) = [EvThrowIOException EINVAL]
      /\ state_of (disconnectIap2Native arg w s) = s)
  /\ (result (sendDataNative len arg w s) = JNI_FALSE
      /\ events (sendDataNative len arg w s) = [EvThrowIOException EINVAL]
      /\ state_of (sendDataNative len arg w s) = s).
Proof.
  intros Hi Hnull.
  unfold connectIap2Native, disconnectIap2Native, sendDataNative.
  revert Hnull. run_m. rewrite Hi. run_m.
  intros ->. run_m. repeat split.
Qed.

Lemma unreadable_argument_raises_io_error_witness :
  result (connectIap2Native None world_ok state_active) = JNI_FALSE
  /\ existsb is_io_exception
       (events (connectIap2Native None world_ok state_active)) = true
  /\ existsb is_native_call
       (events (connectIap2Native None world_ok state_active)) = false
  /\ result (sendDataNative 3 (Some 1%nat) world_no_elements state_active)
     = JNI_FALSE.
Proof.
  destruct (unreadable_argument_raises_io_error world_ok state_active
              sample_iface None 3 eq_refl eq_refl) as ((Hr & He & _) & _).
  destruct (unreadable_argument_raises_io_error world_no_elements state_active
              sample_iface (Some 1%nat) 3 eq_refl eq_refl)
    as (_ & _ & Hs & _).
  split; [exact Hr |]. rewrite He.
  split; [reflexivity |]. split; [reflexivity | exact Hs].
Defined.

(** C1, amended. With the interface active and the buffer readable,
    sendDataNative checks no length: whatever the number of bytes the
    buffer holds, nothing is thrown, send_data is called once with the
    caller's length and the buffer's elements as they are, and the answer
    is JNI_TRUE exactly when send_data answers BT_STATUS_SUCCESS. *)
Theorem sendData_forwards_verbatim `{Headers} (w : World) (s : State)
    (iface : btiap2_interface_t) (len : Z) (data : jbyteArray)
    (buf : list byte) :
  sBluetoothIap2Interface s = Some iface ->
  result (GetByteArrayElements data w s) = Some buf ->
  existsb is_io_exception (events (sendDataNative len data w s)) = false
  /\ List.filter is_native_call (events (sendDataNative len data w s))
     = [EvIap2SendData len buf]
  /\ result (sendDataNative len data w s)
     = (iap2_send_data iface len buf =? BT_STATUS_SUCCESS)%Z
  /\ state_of (sendDataNative len data w s) = s.
Proof.
  intros Hi Hbuf. unfold sendDataNative.
  revert Hbuf. run_m. rewrite Hi. run_m.
  intros ->. run_m.
  destruct (iap2_send_data iface len buf =? BT_STATUS_SUCCESS)%Z; run_m;
    repeat split.
Qed.

Lemma sendData_forwards_verbatim_witness :
  List.filter is_native_call
    (events (sendDataNative 5 (Some 1%nat) world_ok state_active))
  = [EvIap2SendData 5 [Byte.x01; Byte.x02; Byte.x03]].
Proof.
  exact (proj1 (proj2 (sendData_forwards_verbatim world_ok state_active
                         sample_iface 5 (Some 1%nat)
                         [Byte.x01; Byte.x02; Byte.x03] eq_refl eq_refl))).
Defined.

(** C1 fails as stated: sendData(5, B) with B a readable array of three
    bytes raises nothing, hands length 5 and the three bytes to send_data,
    and answers JNI_TRUE. *)
Lemma sendData_short_buffer_not_rejected :
  result (GetByteArrayElements (Some 1%nat) world_ok state_active)
  = Some [Byte.x01; Byte.x02; Byte.x03]
  /\ ~ rejects_short_buffer 5 (Some 1%nat) world_ok state_active
  /\ events (sendDataNative 5 (Some 1%nat) world_ok state_active)
     = [EvIap2SendData 5 [Byte.x01; Byte.x02; Byte.x03];
        EvReleaseByteArrayElements (Some 1%nat) 0]
  /\ result (sendDataNative 5 (Some 1%nat) world_ok state_active) = JNI_TRUE.
Proof.
  split; [reflexivity |]. split; [| split; reflexivity].
  intros Hclaim.
  destruct (Hclaim [Byte.x01; Byte.x02; Byte.x03] eq_refl) as [Hthrow _].
  - simpl. lia.
  - vm_compute in Hthrow. discriminate Hthrow.
Qed.

(** ** Further properties of the callbacks *)

(** The callbacks, run to the point where only the world's answers are
    left to decide. *)
Ltac run_callback e w s :=
  let Hm := fresh "Hm" in
  destruct (context_mismatch_dec w) as [Hm | Hm];
  [ rewrite (callback_dropped_run e w s Hm)
  | destruct e; simpl;
    unfold connection_state_callback, service_state_callback, data_callback,
      error_callback; run_m;
    rewrite (CHECK_CALLBACK_ENV_passed _ w s Hm); run_m ].

(** A callback invokes the listener once or not at all, and once
    exactly when the gate is open and what it has to allocate first is
    there. *)
Theorem listener_called_once_or_never `{Headers}
    (e : StackEvent) (w : World) (s : State) :
  (listener_calls (events (sBluetoothIap2Callbacks e w s)) <= 1)%nat
  /\ (listener_calls (events (sBluetoothIap2Callbacks e w s)) = 1%nat
      <-> ~ context_mismatch w /\ can_deliver e w = true).
Proof.
  unfold listener_calls.
  run_callback e w s.
  - unfold events. destruct e; simpl; (split; [lia |]);
      split; (discriminate || tauto).
  - unfold can_deliver. rewrite Z.leb_antisym.
    destruct (sizeof_bt_bdaddr_t <? 0)%Z, (NewByteArray_ok w); run_m; simpl;
      (split; [lia |]); split; (discriminate || tauto || intuition discriminate).
  - unfold can_deliver. rewrite Z.leb_antisym.
    destruct (sizeof_bt_bdaddr_t <? 0)%Z, (NewByteArray_ok w); run_m; simpl;
      try (split; [lia |]; split; (discriminate || tauto || intuition discriminate)).
    destruct (state =? BTIAP2_SERVICE_STATE_CONNECTED)%Z; run_m; simpl;
      [destruct (jniCreateFileDescriptor_ok w); run_m; simpl |];
      (split; [lia |]); split; (discriminate || tauto || intuition discriminate).
  - unfold can_deliver. rewrite Z.leb_antisym.
    destruct (jint_of_uint len <? 0)%Z, (NewByteArray_ok w); run_m; simpl;
      (split; [lia |]); split; (discriminate || tauto || intuition discriminate).
  - destruct (NewStringUTF_ok w); run_m; simpl;
      (split; [lia |]); split; (discriminate || tauto || intuition discriminate).
Qed.

Ltac in_cases H :=
  repeat (destruct H as [H | H]; try discriminate H); try contradiction.

Ltac set_region_frame :=
  unfold set_region;
  match goal with
  | |- context [jheap ?s !! ?arr] =>
      destruct (jheap s !! arr) as [[l | | |] |]; auto;
      destruct (_ && _); auto
  end.

Lemma set_region_method_onConnectionStateChanged (arr : jref)
    (start len buf : Z) (s : State) :
  method_onConnectionStateChanged (set_region arr start len buf s)
  = method_onConnectionStateChanged s.
Proof. set_region_frame. Qed.

Lemma set_region_method_onServiceStateChanged (arr : jref)
    (start len buf : Z) (s : State) :
  method_onServiceStateChanged (set_region arr start len buf s)
  = method_onServiceStateChanged s.
Proof. set_region_frame. Qed.

Lemma set_region_method_onDataRx (arr : jref) (start len buf : Z) (s : State) :
  method_onDataRx (set_region arr start len buf s) = method_onDataRx s.
Proof. set_region_frame. Qed.

Lemma set_region_nmem (arr : jref) (start len buf : Z) (s : State) :
  nmem (set_region arr start len buf s) = nmem s.
Proof. set_region_frame. Qed.

#[local] Hint Rewrite set_region_method_onConnectionStateChanged
  set_region_method_onServiceStateChanged set_region_method_onDataRx
  set_region_nmem : statics.

(** Whenever a callback invokes the listener, the receiver is what
    mCallbacksObj held when the callback was entered, NULL included (no
    callback checks it), and the method is the id classInitNative stored
    for that kind of event. *)
Theorem callbacks_call_registered_listener `{Headers}
    (e : StackEvent) (w : World) (s : State)
    (obj : option jglobal) (mid : option jmethodID) (args : list jvalue) :
  In (EvCallVoidMethod obj mid args) (events (sBluetoothIap2Callbacks e w s)) ->
  obj = mCallbacksObj s /\ mid = handler_of e s.
Proof.
  run_callback e w s.
  - unfold events. destruct e; simpl; intros Hin; in_cases Hin.
  - destruct (_ || _); run_m; intros Hin; in_cases Hin.
    injection Hin as <- <- _. autorewrite with statics. split; reflexivity.
  - destruct (_ || _); run_m; [intros Hin; in_cases Hin |].
    destruct (state =? _)%Z; run_m;
      [destruct (jniCreateFileDescriptor_ok w); run_m |];
      intros Hin; in_cases Hin;
      injection Hin as <- <- _; autorewrite with statics; split; reflexivity.
  - destruct (_ || _); run_m; intros Hin; in_cases Hin.
    injection Hin as <- <- _. autorewrite with statics. split; reflexivity.
  - destruct (NewStringUTF_ok w); run_m; intros Hin; in_cases Hin;
      injection Hin as <- <- _; split; reflexivity.
Qed.

Lemma callbacks_call_registered_listener_witness :
  In (EvCallVoidMethod None (Some ("onError", "(ILjava/lang/String;)V"))
        [JInt 4; JObject (Some 2%nat)])
     (events (sBluetoothIap2Callbacks (ErrorRaised 4 "link lost")
                world_ok state_clean))
  /\ None = mCallbacksObj state_clean.
Proof.
  assert (Hin :
    In (EvCallVoidMethod None (Some ("onError", "(ILjava/lang/String;)V"))
          [JInt 4; JObject (Some 2%nat)])
       (events (sBluetoothIap2Callbacks (ErrorRaised 4 "link lost")
                  world_ok state_clean)))
    by (vm_compute; left; reflexivity).
  split; [exact Hin |].
  exact (proj1 (callbacks_call_registered_listener _ _ _ _ _ _ Hin)).
Defined.



Lemma set_region_length (arr : jref) (start len buf : Z) (s : State) :
  length (jheap (set_region arr start len buf s)) = length (jheap s).
Proof.
  unfold set_region.
  destruct (jheap s !! arr) as [[l | | |] |]; auto.
  destruct (_ && _); auto. simpl. apply length_insert.
Qed.




(** A length of 2^31 or more is negative once it is a jsize. *)
Lemma jint_of_uint_large (len : Z) :
  (2 ^ 31 <= len < 2 ^ 32)%Z -> (jint_of_uint len <? 0)%Z = true.
Proof.
  intros Hlen. unfold jint_of_uint.
  rewrite Z.mod_small by lia.
  destruct (len <? 2 ^ 31)%Z eqn:E.
  - apply Z.ltb_lt in E. lia.
  - apply Z.ltb_lt. lia.
Qed.

(** data_callback with a length of 2^31 bytes or more never reaches the
    listener: NewByteArray is asked for a negative size, and past the
    gate the callback logs the failed allocation, clears the pending
    exception and returns, with the heap as it was. *)
Theorem data_callback_drops_oversized (len data : Z) (w : World) (s : State) :
  (2 ^ 31 <= len < 2 ^ 32)%Z ->
  listener_calls (events (data_callback len data w s)) = 0%nat
  /\ jheap (state_of (data_callback len data w s)) = jheap s
  /\ (~ context_mismatch w ->
      events (data_callback len data w s)
      = [EvLog LOG_ERROR "Fail to new jbyteArray buf for data callback";
         EvClearException "data_callback"]).
Proof.
  intros Hlen. unfold data_callback, listener_calls.
  destruct (context_mismatch_dec w) as [Hm | Hm].
  - rewrite (CHECK_CALLBACK_ENV_dropped _ w s Hm). run_m.
    repeat split. tauto.
  - rewrite (CHECK_CALLBACK_ENV_passed _ w s Hm). run_m.
    rewrite (jint_of_uint_large len Hlen). cbn [orb]. run_m.
    repeat split.
Qed.

Lemma data_callback_drops_oversized_witness :
  listener_calls (events (data_callback (2 ^ 31) 100 world_ok state_active))
  = 0%nat.
Proof.
  refine (proj1 (data_callback_drops_oversized (2 ^ 31) 100 world_ok
                   state_active _)).
  lia.
Defined.



(** What a callback allocates first (the address array, the data array,
    the message string) it also releases: if the heap grew during the
    run, DeleteLocalRef was called on the first new slot. *)
Theorem callbacks_release_first_allocation `{Headers}
    (e : StackEvent) (w : World) (s : State) :
  (length (jheap s)
   < length (jheap (state_of (sBluetoothIap2Callbacks e w s))))%nat ->
  In (EvDeleteLocalRef (Some (length (jheap s))))
     (events (sBluetoothIap2Callbacks e w s)).
Proof.
  run_callback e w s.
  - unfold state_of. simpl. lia.
  - destruct (_ || _); run_m; [simpl; lia |].
    intros _. simpl. tauto.
  - destruct (_ || _); run_m; [simpl; lia |].
    destruct (state =? _)%Z; run_m;
      [destruct (jniCreateFileDescriptor_ok w); run_m |];
      intros _; simpl; tauto.
  - destruct (_ || _); run_m; [simpl; lia |].
    intros _. simpl. tauto.
  - destruct (NewStringUTF_ok w); run_m; [| simpl; lia].
    intros _. simpl. tauto.
Qed.

Lemma callbacks_release_first_allocation_witness :
  In (EvDeleteLocalRef (Some (length (jheap state_active))))
     (events (sBluetoothIap2Callbacks (DataReceived 3 100) world_ok
                state_active)).
Proof.
  apply (callbacks_release_first_allocation (DataReceived 3 100) world_ok
           state_active).
  vm_compute. lia.
Defined.

(** The FileDescriptor object is another matter: when
    service_state_callback hands a handle to the listener, it never calls
    DeleteLocalRef on it; the only local reference it deletes is the
    address array's. *)
Theorem service_state_keeps_handle_reference `{Headers}
    (state : btiap2_service_state_t) (bd_addr fd : Z) (w : World) (s : State)
    (obj : option jglobal) (mid : option jmethodID)
    (a b : jvalue) (handle : jref) :
  In (EvCallVoidMethod obj mid [a; b; JObject (Some handle)])
     (events (service_state_callback state bd_addr fd w s)) ->
  handle <> length (jheap s)
  /\ forall r : option jref,
       In (EvDeleteLocalRef r)
          (events (service_state_callback state bd_addr fd w s)) ->
       r = Some (length (jheap s)).
Proof.
  unfold service_state_callback.
  destruct (context_mismatch_dec w) as [Hm | Hm].
  - run_m. rewrite (CHECK_CALLBACK_ENV_dropped _ w s Hm). run_m.
    intros Hin. in_cases Hin.
  - run_m. rewrite (CHECK_CALLBACK_ENV_passed _ w s Hm). run_m.
    destruct (_ || _); run_m; [intros Hin; in_cases Hin |].
    destruct (state =? _)%Z; run_m;
      [destruct (jniCreateFileDescriptor_ok w); run_m |];
      intros Hin; in_cases Hin.
    injection Hin as _ _ _ _ <-. split.
    + simpl. rewrite length_app. simpl. lia.
    + intros r Hr. in_cases Hr. injection Hr as <-. reflexivity.
Qed.

Lemma service_state_keeps_handle_reference_witness :
  (3 <> length (jheap state_active))%nat
  /\ forall r : option jref,
       In (EvDeleteLocalRef r)
          (events (service_state_callback 2 100 7 world_ok state_active)) ->
       r = Some (length (jheap state_active)).
Proof.
  apply (service_state_keeps_handle_reference 2 100 7 world_ok state_active
           (Some 0%nat)
           (Some ("onServiceStateChanged", "(I[BLjava/io/FileDescriptor;)V"))
           (JInt 2) (JObject (Some 2%nat)) 3%nat).
  vm_compute. right. left. reflexivity.
Defined.

(** ** Further properties of initialization and cleanup *)

(** With no Bluetooth module loaded, initializeNative only logs: a
    session that was active stays active, with its interface and its
    listener. *)
Theorem initialize_without_module_changes_nothing `{Headers}
    (object : jobject) (w : World) (s : State) :
  getBluetoothInterface_result w = None ->
  state_of (initializeNative object w s) = s
  /\ events (initializeNative object w s)
     = [EvLog LOG_ERROR "Bluetooth module is not loaded"].
Proof.
  intros Hw. unfold initializeNative. run_m. rewrite Hw. run_m.
  split; reflexivity.
Qed.

Lemma initialize_without_module_changes_nothing_witness :
  state_of (initializeNative 0%nat world_no_module state_active) = state_active.
Proof.
  exact (proj1 (initialize_without_module_changes_nothing 0%nat
                  world_no_module state_active eq_refl)).
Defined.

(** With the module loaded, a failed initializeNative (no IAP2 profile
    interface, or init answering another status than BT_STATUS_SUCCESS)
    leaves no session at all: the interface pointer and the listener
    reference are NULL, also when a session was active before, whose
    interface was cleaned up and whose listener reference was freed; no
    new global reference is made, and no global reference stays live. *)
Theorem failed_initialize_leaves_nothing `{Headers}
    (object : jobject) (w : World) (s : State) (btInf : bt_interface_t) :
  getBluetoothInterface_result w = Some btInf ->
  match get_profile_interface btInf BT_PROFILE_IAP2_ID with
  | None => True
  | Some iface => iap2_init iface <> BT_STATUS_SUCCESS
  end ->
  one_listener s ->
  sBluetoothIap2Interface (state_of (initializeNative object w s)) = None
  /\ mCallbacksObj (state_of (initializeNative object w s)) = None
  /\ live_globals (state_of (initializeNative object w s)) = []
  /\ existsb is_new_global_ref (events (initializeNative object w s)) = false
  /\ (is_Some (sBluetoothIap2Interface s) ->
      In EvIap2Cleanup (events (initializeNative object w s)))
  /\ (forall g, mCallbacksObj s = Some g ->
      In (EvDeleteGlobalRef g) (events (initializeNative object w s))).
Proof.
  intros Hw Hfail Hs. unfold initializeNative. run_m. rewrite Hw. run_m.
  rewrite release_interface_run.
  unfold one_listener, live_globals in *.
  destruct (mCallbacksObj s) as [g |] eqn:Ec;
    destruct (sBluetoothIap2Interface s) as [old |]; run_m;
    rewrite release_callbacks_run;
    cbn [mCallbacksObj set_sBluetoothIap2Interface]; rewrite Ec; run_m; cbn;
    destruct (get_profile_interface btInf BT_PROFILE_IAP2_ID) as [iface |];
    run_m; cbn.
  all: try (apply Z.eqb_neq in Hfail; rewrite Hfail; run_m; cbn).
  all: rewrite ?(live_from_delete 0%nat g _ Hs), ?Hs.
  all: repeat split; auto.
  all: try (intros [x Hx]; discriminate Hx).
  all: try (intros g' [= <-]; tauto).
  all: try discriminate.
Qed.

Lemma failed_initialize_leaves_nothing_witness :
  sBluetoothIap2Interface
    (state_of (initializeNative 0%nat world_no_profile state_active)) = None
  /\ mCallbacksObj
       (state_of (initializeNative 0%nat world_no_profile state_active)) = None.
Proof.
  destruct (failed_initialize_leaves_nothing 0%nat world_no_profile
              state_active {| get_profile_interface := fun _ => None |}
              eq_refl I eq_refl) as (Hi & Hc & _).
  split; assumption.
Defined.

(** A successful initializeNative, step by step: the previous
    interface, if any, is cleaned up; the previous listener reference, if
    any, is freed; the interface fetched for BT_PROFILE_IAP2_ID is
    initialized once and becomes the active one; a global reference to
    the caller's object is made last and becomes the listener, pinning
    that very object.  When NewGlobalRef answers NULL the interface stays
    active with a NULL listener.  The Java heap is not touched. *)
Theorem initialize_success `{Headers}
    (object : jobject) (w : World) (s : State)
    (btInf : bt_interface_t) (iface : btiap2_interface_t) :
  getBluetoothInterface_result w = Some btInf ->
  get_profile_interface btInf BT_PROFILE_IAP2_ID = Some iface ->
  iap2_init iface = BT_STATUS_SUCCESS ->
  sBluetoothIap2Interface (state_of (initializeNative object w s)) = Some iface
  /\ events (initializeNative object w s)
     = (match sBluetoothIap2Interface s with
        | Some _ =>
            [EvLog LOG_WARN
               "Cleaning up Bluetooth IAP2 Interface before initializing...";
             EvIap2Cleanup]
        | None => []
        end
        ++ match mCallbacksObj s with
           | Some g =>
               [EvLog LOG_WARN "Cleaning up Bluetooth IAP2 callback object";
                EvDeleteGlobalRef g]
           | None => []
           end
        ++ [EvIap2Init;
            EvNewGlobalRef object
              (mCallbacksObj (state_of (initializeNative object w s)))])%list
  /\ (NewGlobalRef_ok w = true ->
      exists g : jglobal,
        mCallbacksObj (state_of (initializeNative object w s)) = Some g
        /\ jglobals (state_of (initializeNative object w s)) !! g
           = Some (Some object))
  /\ (NewGlobalRef_ok w = false ->
      mCallbacksObj (state_of (initializeNative object w s)) = None)
  /\ jheap (state_of (initializeNative object w s)) = jheap s.
Proof.
  intros Hw Hp Hi. unfold initializeNative. run_m. rewrite Hw. run_m.
  rewrite release_interface_run.
  destruct (mCallbacksObj s) as [g |] eqn:Ec;
    destruct (sBluetoothIap2Interface s) as [old |]; run_m;
    rewrite release_callbacks_run;
    cbn [mCallbacksObj set_sBluetoothIap2Interface]; rewrite Ec; run_m; cbn;
    rewrite Hp; run_m; cbn; rewrite Hi, Z.eqb_refl; run_m; cbn;
    destruct (NewGlobalRef_ok w); run_m; cbn;
    repeat split; try discriminate; intros _; eexists; (split; [reflexivity |]);
    apply list_lookup_middle; rewrite ?length_insert; reflexivity.
Qed.

Lemma initialize_success_witness :
  sBluetoothIap2Interface
    (state_of (initializeNative 0%nat world_ok state_clean))
  = Some sample_iface
  /\ exists g : jglobal,
       mCallbacksObj (state_of (initializeNative 0%nat world_ok state_clean))
       = Some g
       /\ jglobals (state_of (initializeNative 0%nat world_ok state_clean)) !! g
          = Some (Some 0%nat).
Proof.
  destruct (@initialize_success sample_headers 0%nat world_ok state_clean
              sample_btInf sample_iface eq_refl eq_refl eq_refl)
    as (Hi & _ & Hg & _).
  split; [exact Hi | exact (Hg eq_refl)].
Defined.

(** With the module loaded, cleanupNative releases exactly what is held:
    the interface's cleanup is called if and only if an interface was
    active, DeleteGlobalRef if and only if a listener was registered (and
    on that very reference), the interface before the listener; both
    fields end NULL, and the Java heap is not touched. *)
Theorem cleanup_releases_what_is_held
    (object : jobject) (w : World) (s : State) :
  getBluetoothInterface_result w <> None ->
  events (cleanupNative object w s)
  = (match sBluetoothIap2Interface s with
     | Some _ =>
         [EvLog LOG_WARN "Cleaning up Bluetooth IAP2 Interface...";
          EvIap2Cleanup]
     | None => []
     end
     ++ match mCallbacksObj s with
        | Some g =>
            [EvLog LOG_WARN "Cleaning up Bluetooth Handsfree callback object";
             EvDeleteGlobalRef g]
        | None => []
        end)%list
  /\ sBluetoothIap2Interface (state_of (cleanupNative object w s)) = None
  /\ mCallbacksObj (state_of (cleanupNative object w s)) = None
  /\ (forall g, mCallbacksObj s = Some g ->
      mjoin (jglobals (state_of (cleanupNative object w s)) !! g) = None)
  /\ jheap (state_of (cleanupNative object w s)) = jheap s.
Proof.
  intros Hw. unfold cleanupNative. run_m.
  destruct (getBluetoothInterface_result w); [| congruence]. run_m.
  rewrite release_interface_run.
  destruct (mCallbacksObj s) as [g |] eqn:Ec;
    destruct (sBluetoothIap2Interface s) as [old |] eqn:Ei; run_m;
    rewrite release_callbacks_run;
    cbn [mCallbacksObj set_sBluetoothIap2Interface]; rewrite Ec; run_m; cbn;
    repeat split; try discriminate; try assumption.
  all: intros g' [= <-].
  all: destruct (decide (g < length (jglobals s))%nat) as [Hlt | Hge].
  all: try (rewrite list_lookup_insert_eq by exact Hlt; reflexivity).
  all: rewrite lookup_ge_None_2 by (rewrite length_insert; lia); reflexivity.
Qed.

Lemma cleanup_releases_what_is_held_witness :
  events (cleanupNative 0%nat world_ok state_active)
  = [EvLog LOG_WARN "Cleaning up Bluetooth IAP2 Interface...";
     EvIap2Cleanup;
     EvLog LOG_WARN "Cleaning up Bluetooth Handsfree callback object";
     EvDeleteGlobalRef 0%nat].
Proof.
  refine (proj1 (cleanup_releases_what_is_held 0%nat world_ok state_active _)).
  discriminate.
Defined.

(** No global reference outlives a session: from a state with at most
    one registration, initializeNative (whatever its outcome) followed by
    cleanupNative with the module loaded ends with no interface, no
    listener and no live global reference. *)
Theorem initialize_then_cleanup_leaks_nothing `{Headers}
    (object object' : jobject) (w w' : World) (s : State) :
  one_listener s ->
  getBluetoothInterface_result w' <> None ->
  live_globals
    (state_of (cleanupNative object' w' (state_of (initializeNative object w s))))
  = []
  /\ sBluetoothIap2Interface
       (state_of (cleanupNative object' w'
                    (state_of (initializeNative object w s)))) = None
  /\ mCallbacksObj
       (state_of (cleanupNative object' w'
                    (state_of (initializeNative object w s)))) = None.
Proof.
  intros Hs Hw'.
  pose proof (initialize_keeps_one_listener object w s Hs) as H1.
  pose proof (cleanup_keeps_one_listener object' w' _ H1) as H2.
  destruct (cleanup_clears object' w' (state_of (initializeNative object w s)) Hw')
    as [Ei Ec].
  unfold one_listener in H2. rewrite Ec in H2.
  split; [exact H2 |]. split; assumption.
Qed.

Lemma initialize_then_cleanup_leaks_nothing_witness :
  live_globals
    (state_of (cleanupNative 0%nat world_ok
                 (state_of (initializeNative 0%nat world_ok state_active))))
  = [].
Proof.
  refine (proj1 (initialize_then_cleanup_leaks_nothing 0%nat 0%nat world_ok
                   world_ok state_active eq_refl _)).
  discriminate.
Defined.

(** ** Further properties of the requests *)

(** connect and disconnect with the interface active and a readable
    address: the interface's entry is called once with the array's
    elements as they are, the elements are released with mode 0 after the
    call, whatever the status, and the answer is JNI_TRUE exactly for
    BT_STATUS_SUCCESS; any other status is logged as an error and
    answered with JNI_FALSE.  Nothing is thrown and the state is left as
    it is. *)
Theorem connect_disconnect_forward `{Headers} (w : World) (s : State)
    (iface : btiap2_interface_t) (address : jbyteArray) (addr : list byte) :
  sBluetoothIap2Interface s = Some iface ->
  result (GetByteArrayElements address w s) = Some addr ->
  (result (connectIap2Native address w s)
   = (iap2_connect iface addr =? BT_STATUS_SUCCESS)%Z
   /\ events (connectIap2Native address w s)
      = ([EvLog LOG_INFO "%s: sBluetoothIap2Interface: %p";
          EvIap2Connect addr]
         ++ (if (iap2_connect iface addr =? BT_STATUS_SUCCESS)%Z then []
             else [EvLog LOG_ERROR "Failed IAP2 connection, status: %d"])
         ++ [EvReleaseByteArrayElements address 0])%list
   /\ state_of (connectIap2Native address w s) = s)
  /\ (result (disconnectIap2Native address w s)
      = (iap2_disconnect iface addr =? BT_STATUS_SUCCESS)%Z
      /\ events (disconnectIap2Native address w s)
         = ([EvIap2Disconnect addr]
            ++ (if (iap2_disconnect iface addr =? BT_STATUS_SUCCESS)%Z then []
                else [EvLog LOG_ERROR "Failed IAP2 disconnection, status: %d"])
            ++ [EvReleaseByteArrayElements address 0])%list
      /\ state_of (disconnectIap2Native address w s) = s).
Proof.
  intros Hi Ha. unfold connectIap2Native, disconnectIap2Native.
  revert Ha. run_m. rewrite Hi. run_m. intros ->. run_m.
  split.
  - destruct (iap2_connect iface addr =? BT_STATUS_SUCCESS)%Z; run_m;
      repeat split.
  - destruct (iap2_disconnect iface addr =? BT_STATUS_SUCCESS)%Z; run_m;
      repeat split.
Qed.

Lemma connect_disconnect_forward_witness :
  events (connectIap2Native (Some 1%nat) world_ok state_active)
  = [EvLog LOG_INFO "%s: sBluetoothIap2Interface: %p";
     EvIap2Connect [Byte.x01; Byte.x02; Byte.x03];
     EvReleaseByteArrayElements (Some 1%nat) 0].
Proof.
  exact (proj1 (proj2 (proj1
    (@connect_disconnect_forward sample_headers world_ok state_active
       sample_iface (Some 1%nat) [Byte.x01; Byte.x02; Byte.x03]
       eq_refl eq_refl)))).
Defined.

(** A send the transport refuses: one call of send_data, the failure
    logged as an error, the buffer released all the same, JNI_FALSE
    answered, and no second attempt. *)
Theorem sendData_refused `{Headers} (w : World) (s : State)
    (iface : btiap2_interface_t) (len : Z) (data : jbyteArray)
    (buf : list byte) :
  sBluetoothIap2Interface s = Some iface ->
  result (GetByteArrayElements data w s) = Some buf ->
  iap2_send_data iface len buf <> BT_STATUS_SUCCESS ->
  result (sendDataNative len data w s) = JNI_FALSE
  /\ events (sendDataNative len data w s)
     = [EvIap2SendData len buf;
        EvLog LOG_ERROR "Failed IAP2 send data, status: %d";
        EvReleaseByteArrayElements data 0].
Proof.
  intros Hi Hb Hst. unfold sendDataNative.
  revert Hb. run_m. rewrite Hi. run_m. intros ->. run_m.
  apply Z.eqb_neq in Hst. rewrite Hst. run_m. split; reflexivity.
Qed.

(** The requests never reach the listener and change nothing: whatever
    the arguments, the state and the world, connect, disconnect and
    sendData leave the state as it is, invoke no listener method, make
    or free no global reference, and call at most one entry of the
    interface. *)
Theorem requests_are_stateless `{Headers} (c : Call) (w : World) (s : State) :
  match c with
  | Connect _ | Disconnect _ | SendData _ _ =>
      state_of (run_call c w s) = s
      /\ listener_calls (events (run_call c w s)) = 0%nat
      /\ existsb (fun e => is_new_global_ref e || is_release e)
           (events (run_call c w s)) = false
      /\ (length (List.filter is_native_call (events (run_call c w s))) <= 1)%nat
  | _ => True
  end.
Proof.
  destruct c as [clazz | object | object | address | address | len address | e];
    try exact I; simpl;
    unfold connectIap2Native, disconnectIap2Native, sendDataNative,
      listener_calls; run_m.
  all: destruct (sBluetoothIap2Interface s) as [iface |]; run_m;
    [| simpl; repeat split; lia].
  all: destruct address as [r |]; run_m; [| simpl; repeat split; lia].
  all: destruct (jheap s !! r) as [[l | | |] |]; run_m;
    try (simpl; repeat split; lia).
  all: destruct (GetByteArrayElements_ok w); run_m;
    [| simpl; repeat split; lia].
  all: destruct (negb _); run_m; simpl; repeat split; lia.
Qed.

Lemma sendData_refused_witness :
  result (sendDataNative 3 (Some 1%nat) world_ok
            (set_sBluetoothIap2Interface (Some refusing_iface) state_active))
  = JNI_FALSE.
Proof.
  refine (proj1 (@sendData_refused sample_headers world_ok
                   (set_sBluetoothIap2Interface (Some refusing_iface)
                      state_active)
                   refusing_iface 3 (Some 1%nat)
                   [Byte.x01; Byte.x02; Byte.x03] eq_refl eq_refl _)).
  simpl. lia.
Defined.

(** ** How the native methods compose *)

(** After cleanupNative ran with the module loaded, the binding is
    closed: connect, disconnect and sendData answer JNI_FALSE without
    calling the interface or throwing, whatever the arguments, until
    initializeNative succeeds again. *)
Theorem requests_fail_after_cleanup `{Headers}
    (object : jobject) (w w' : World) (s : State)
    (address : jbyteArray) (len : Z) :
  getBluetoothInterface_result w <> None ->
  (result (connectIap2Native address w' (state_of (cleanupNative object w s)))
   = JNI_FALSE
   /\ existsb (fun e => is_native_call e || is_io_exception e)
        (events (connectIap2Native address w'
                   (state_of (cleanupNative object w s)))) = false)
  /\ (result (disconnectIap2Native address w'
                (state_of (cleanupNative object w s))) = JNI_FALSE
      /\ events (disconnectIap2Native address w'
                   (state_of (cleanupNative object w s))) = [])
  /\ (result (sendDataNative len address w'
                (state_of (cleanupNative object w s))) = JNI_FALSE
      /\ events (sendDataNative len address w'
                   (state_of (cleanupNative object w s))) = []).
Proof.
  intros Hw.
  destruct (cleanup_clears object w s Hw) as [Ei _].
  set (s1 := state_of (cleanupNative object w s)) in *. clearbody s1.
  unfold connectIap2Native, disconnectIap2Native, sendDataNative.
  run_m. rewrite Ei. run_m. repeat split.
Qed.

Lemma requests_fail_after_cleanup_witness :
  result (connectIap2Native (Some 1%nat) world_ok
            (state_of (cleanupNative 0%nat world_ok state_active)))
  = JNI_FALSE.
Proof.
  refine (proj1 (proj1 (@requests_fail_after_cleanup sample_headers 0%nat
                          world_ok world_ok state_active (Some 1%nat) 0 _))).
  discriminate.
Defined.

(** After a successful initializeNative the requests go to the interface
    that was fetched for BT_PROFILE_IAP2_ID, not to the one that was
    active before: with a readable argument, connect, disconnect and
    sendData answer JNI_TRUE exactly when that interface's entry answers
    BT_STATUS_SUCCESS. *)
Theorem requests_reach_new_interface `{Headers}
    (object : jobject) (w w' : World) (s : State)
    (btInf : bt_interface_t) (iface : btiap2_interface_t)
    (arg : jbyteArray) (elems : list byte) (len : Z) :
  getBluetoothInterface_result w = Some btInf ->
  get_profile_interface btInf BT_PROFILE_IAP2_ID = Some iface ->
  iap2_init iface = BT_STATUS_SUCCESS ->
  result (GetByteArrayElements arg w' s) = Some elems ->
  result (connectIap2Native arg w' (state_of (initializeNative object w s)))
  = (iap2_connect iface elems =? BT_STATUS_SUCCESS)%Z
  /\ result (disconnectIap2Native arg w'
               (state_of (initializeNative object w s)))
     = (iap2_disconnect iface elems =? BT_STATUS_SUCCESS)%Z
  /\ result (sendDataNative len arg w'
               (state_of (initializeNative object w s)))
     = (iap2_send_data iface len elems =? BT_STATUS_SUCCESS)%Z.
Proof.
  intros Hw Hp Hi Ha.
  assert (Hs : sBluetoothIap2Interface (state_of (initializeNative object w s))
               = Some iface
               /\ jheap (state_of (initializeNative object w s)) = jheap s).
  { unfold initializeNative. run_m. rewrite Hw. run_m.
    rewrite release_interface_run.
    destruct (mCallbacksObj s) as [g |] eqn:Ec;
      destruct (sBluetoothIap2Interface s) as [old |]; run_m;
      rewrite release_callbacks_run;
      cbn [mCallbacksObj set_sBluetoothIap2Interface]; rewrite Ec; run_m; cbn;
      rewrite Hp; run_m; cbn; rewrite Hi, Z.eqb_refl; run_m; cbn;
      destruct (NewGlobalRef_ok w); run_m; cbn; split; reflexivity. }
  destruct Hs as [Ei Eh].
  set (s1 := state_of (initializeNative object w s)) in *. clearbody s1.
  unfold connectIap2Native, disconnectIap2Native, sendDataNative.
  revert Ha. run_m. rewrite Ei, Eh. run_m. intros ->. run_m.
  repeat split.
  - destruct (iap2_connect iface elems =? BT_STATUS_SUCCESS)%Z; reflexivity.
  - destruct (iap2_disconnect iface elems =? BT_STATUS_SUCCESS)%Z; reflexivity.
  - destruct (iap2_send_data iface len elems =? BT_STATUS_SUCCESS)%Z;
      reflexivity.
Qed.

Lemma requests_reach_new_interface_witness :
  result (connectIap2Native (Some 1%nat) world_ok
            (state_of (initializeNative 0%nat world_ok
                         (set_sBluetoothIap2Interface (Some refusing_iface)
                            state_active))))
  = true.
Proof.
  exact (proj1 (@requests_reach_new_interface sample_headers 0%nat world_ok
                  world_ok
                  (set_sBluetoothIap2Interface (Some refusing_iface)
                     state_active)
                  sample_btInf sample_iface (Some 1%nat)
                  [Byte.x01; Byte.x02; Byte.x03] 0
                  eq_refl eq_refl eq_refl eq_refl)).
Defined.

(** ** Class initialization *)

Lemma GetMethodID_spec (clazz : jclass) (name sig : string) :
  match GetMethodID clazz name sig with
  | Some m => m = (name, sig) /\ In (name, sig) clazz
  | None => ~ In (name, sig) clazz
  end.
Proof.
  unfold GetMethodID.
  destruct (existsb _ clazz) eqn:E.
  - split; [reflexivity |].
    apply existsb_exists in E. destruct E as ([n sg] & Hin & Heq).
    apply andb_true_iff in Heq. destruct Heq as [Hn Hsg]. simpl in *.
    apply String.eqb_eq in Hn, Hsg. subst. exact Hin.
  - intros Hin.
    assert (existsb
              (fun m => String.eqb (fst m) name && String.eqb (snd m) sig)
              clazz = true) as E'.
    { apply existsb_exists. exists (name, sig). split; [exact Hin |].
      simpl. rewrite !String.eqb_refl. reflexivity. }
    rewrite E in E'. discriminate E'.
Qed.

(** classInitNative checks nothing and touches nothing but the four
    method ids: whatever the class declares, it logs success and leaves
    the interface pointer, the listener reference, the cached
    environment, the Java heap, the global reference table and native
    memory as they are.  What it stored shows at the next callback: the
    listener call of each kind of event is made on the method of that
    name and signature when the class declares it, and on a NULL method
    id when it does not. *)
Theorem classInit_decides_handlers `{Headers}
    (clazz : jclass) (w0 : World) (s : State) :
  (events (classInitNative clazz w0 s) = [EvLog LOG_INFO "%s: succeeds"]
   /\ sBluetoothIap2Interface (state_of (classInitNative clazz w0 s))
      = sBluetoothIap2Interface s
   /\ mCallbacksObj (state_of (classInitNative clazz w0 s)) = mCallbacksObj s
   /\ sCallbackEnv (state_of (classInitNative clazz w0 s)) = sCallbackEnv s
   /\ jheap (state_of (classInitNative clazz w0 s)) = jheap s
   /\ jglobals (state_of (classInitNative clazz w0 s)) = jglobals s
   /\ nmem (state_of (classInitNative clazz w0 s)) = nmem s)
  /\ forall (e : StackEvent) (w : World)
       (obj : option jglobal) (mid : option jmethodID) (args : list jvalue),
      In (EvCallVoidMethod obj mid args)
         (events (sBluetoothIap2Callbacks e w
                    (state_of (classInitNative clazz w0 s)))) ->
      obj = mCallbacksObj s
      /\ match mid with
         | Some m =>
             In m clazz
             /\ m = match e with
                    | ConnectionState _ _ =>
                        ("onConnectionStateChanged", "(I[B)V")
                    | ServiceState _ _ _ =>
                        ("onServiceStateChanged",
                         "(I[BLjava/io/FileDescriptor;)V")
                    | DataReceived _ _ => ("onDataRx", "(I[B)V")
                    | ErrorRaised _ _ => ("onError", "(ILjava/lang/String;)V")
                    end
         | None =>
             ~ In match e with
                  | ConnectionState _ _ =>
                      ("onConnectionStateChanged", "(I[B)V")
                  | ServiceState _ _ _ =>
                      ("onServiceStateChanged",
                       "(I[BLjava/io/FileDescriptor;)V")
                  | DataReceived _ _ => ("onDataRx", "(I[B)V")
                  | ErrorRaised _ _ => ("onError", "(ILjava/lang/String;)V")
                  end clazz
         end.
Proof.
  split; [repeat split |].
  intros e w obj mid args.
  set (s1 := state_of (classInitNative clazz w0 s)).
  assert (Hobj : mCallbacksObj s1 = mCallbacksObj s) by reflexivity.
  assert (Hmid : forall e',
    handler_of e' s1
    = match e' with
      | ConnectionState _ _ =>
          GetMethodID clazz "onConnectionStateChanged" "(I[B)V"
      | ServiceState _ _ _ =>
          GetMethodID clazz "onServiceStateChanged"
            "(I[BLjava/io/FileDescriptor;)V"
      | DataReceived _ _ => GetMethodID clazz "onDataRx" "(I[B)V"
      | ErrorRaised _ _ => GetMethodID clazz "onError" "(ILjava/lang/String;)V"
      end) by (intros []; reflexivity).
  intros Hin.
  assert (Hcall : obj = mCallbacksObj s1 /\ mid = handler_of e s1).
  { clearbody s1. revert Hin. clear Hobj Hmid.
    run_callback e w s1.
    - unfold events. destruct e; simpl; intros Hin; in_cases Hin.
    - destruct (_ || _); run_m; intros Hin; in_cases Hin.
      injection Hin as <- <- _. autorewrite with statics. split; reflexivity.
    - destruct (_ || _); run_m; [intros Hin; in_cases Hin |].
      destruct (state =? _)%Z; run_m;
        [destruct (jniCreateFileDescriptor_ok w); run_m |];
        intros Hin; in_cases Hin;
        injection Hin as <- <- _; autorewrite with statics; split; reflexivity.
    - destruct (_ || _); run_m; intros Hin; in_cases Hin.
      injection Hin as <- <- _. autorewrite with statics. split; reflexivity.
    - destruct (NewStringUTF_ok w); run_m; intros Hin; in_cases Hin;
        injection Hin as <- <- _; split; reflexivity. }
  destruct Hcall as [-> ->].
  split; [exact Hobj |].
  rewrite Hmid.
  destruct e;
    match goal with
    | |- context [GetMethodID ?c ?n ?sg] =>
        pose proof (GetMethodID_spec c n sg) as Hspec;
        destruct (GetMethodID c n sg) as [m |]
    end.
  all: try (destruct Hspec as [-> Hin']; split; [exact Hin' | reflexivity]).
  all: exact Hspec.
Qed.

Lemma classInit_decides_handlers_witness :
  sBluetoothIap2Interface
    (state_of (classInitNative [("onDataRx", "(I[B)V")] world_ok state_active))
  = Some sample_iface
  /\ ~ In ("onError", "(ILjava/lang/String;)V") [("onDataRx", "(I[B)V")].
Proof.
  destruct (@classInit_decides_handlers sample_headers
              [("onDataRx", "(I[B)V")] world_ok state_active)
    as ((_ & Hi & _) & Hcb).
  split; [exact Hi |].
  refine (proj2 (Hcb (ErrorRaised 4 "link lost") world_ok (Some 0%nat) None
                   [JInt 4; JObject (Some 2%nat)] _)).
  vm_compute. left. reflexivity.
Defined.

(** ** The cached callback environment *)

Lemma set_region_sCallbackEnv (arr : jref) (start len buf : Z) (s : State) :
  sCallbackEnv (set_region arr start len buf s) = sCallbackEnv s.
Proof. set_region_frame. Qed.

(** sCallbackEnv is a cache that is never trusted: what a callback does
    (its events and the state it leaves) is the same whatever environment
    was cached before, and after every callback the cache holds what
    getCallbackEnv answered during that callback. *)
Theorem callbacks_ignore_cached_env `{Headers}
    (e : StackEvent) (w : World) (s : State) (stale : option JNIEnv) :
  (state_of (sBluetoothIap2Callbacks e w (set_sCallbackEnv stale s))
   = state_of (sBluetoothIap2Callbacks e w s)
   /\ events (sBluetoothIap2Callbacks e w (set_sCallbackEnv stale s))
      = events (sBluetoothIap2Callbacks e w s))
  /\ sCallbackEnv (state_of (sBluetoothIap2Callbacks e w s))
     = getCallbackEnv_result w.
Proof.
  split.
  - destruct (context_mismatch_dec w) as [Hm | Hm].
    + rewrite !(callback_dropped_run e w _ Hm).
      destruct e; split; reflexivity.
    + destruct e; simpl;
        unfold connection_state_callback, service_state_callback,
          data_callback, error_callback;
        run_m; rewrite !(CHECK_CALLBACK_ENV_passed _ w _ Hm); run_m.
      * destruct (_ || _); run_m; split; reflexivity.
      * destruct (_ || _); run_m; [split; reflexivity |].
        destruct (state =? _)%Z; run_m;
          [destruct (jniCreateFileDescriptor_ok w); run_m |];
          split; reflexivity.
      * destruct (_ || _); run_m; split; reflexivity.
      * destruct (NewStringUTF_ok w); run_m; split; reflexivity.
  - run_callback e w s.
    + reflexivity.
    + destruct (_ || _); run_m; [reflexivity |].
      apply set_region_sCallbackEnv.
    + destruct (_ || _); run_m; [reflexivity |].
      destruct (state =? _)%Z; run_m;
        [destruct (jniCreateFileDescriptor_ok w); run_m |];
        try reflexivity; apply set_region_sCallbackEnv.
    + destruct (_ || _); run_m; [reflexivity |].
      apply set_region_sCallbackEnv.
    + destruct (NewStringUTF_ok w); run_m; reflexivity.
Qed.
